(** * Lifecycle control layer of the Verai sandbox

    A shallow embedding of
    - [src/game/sandbox/controller.py]  (class [SandboxController]),
    - [src/game/sandbox/simulation.py]  (method [SandboxSimulation.update]),
    - [src/api/agent_interface.py]      (class [AgentInterface]),
    and the properties of the control plane, the tick scheduler and the
    connection registry that the specification states about them.

    Python objects are records, dictionaries are [gmap]s, exceptions are
    values threaded through a small state-and-exception monad, and every
    reading of [datetime.now()] is an input of the call that performs it. *)

From Stdlib Require Import ZArith Lia.
From stdpp Require Import base option list gmap strings fin_maps pretty.

Local Open Scope stdpp_scope.

(** ** Python values shared by the three classes *)

(** An exception object; the code only ever observes [str(e)]. *)
Record PyException := mkException { exc_class : string; exc_message : string }.

Global Instance PyException_eq_dec : EqDecision PyException.
Proof. solve_decision. Defined.

Definition str_exc (e : PyException) : string := exc_message e.

(** What Python raises when a method that the class does not define is
    called on an instance, or [.get] is called on [None]. *)
Definition AttributeError (cls attr : string) : PyException :=
  mkException "AttributeError"
    ("'" +:+ cls +:+ "' object has no attribute '" +:+ attr +:+ "'").

(** [datetime] values, in microseconds since the epoch (the resolution of
    [datetime.now()]). *)
Definition datetime := Z.
Bind Scope Z_scope with datetime.

(** Truthiness of a string ([not s] holds for the empty string). *)
Definition str_truthy (s : string) : bool := negb (bool_decide (s = "")).

(** ** State and exception monad

    A Python statement sequence run on a mutable object of type [S]: it
    ends with a value or with a raised exception, and the mutations made
    before a [raise] stay in place. *)

Definition M (S A : Type) : Type := S → (PyException + A) * S.

Definition ret {S A} (a : A) : M S A := λ s, (inr a, s).

Definition bind {S A B} (m : M S A) (k : A → M S B) : M S B :=
  λ s, match m s with
       | (inr a, s') => k a s'
       | (inl e, s') => (inl e, s')
       end.

Definition raise {S A} (e : PyException) : M S A := λ s, (inl e, s).

Definition get {S} : M S S := λ s, (inr s, s).

Definition modify {S} (f : S → S) : M S unit := λ s, (inr tt, f s).

(** [try: body except Exception as e: handler e] *)
Definition try_except {S A} (body : M S A) (handler : PyException → M S A) : M S A :=
  λ s, match body s with
       | (inr a, s') => (inr a, s')
       | (inl e, s') => handler e s'
       end.

(** [try: body finally: final] *)
Definition try_finally {S A} (body : M S A) (final : S → S) : M S A :=
  λ s, let '(r, s') := body s in (r, final s').

Notation "x <- m ;; k" := (bind m (λ x, k))
  (at level 100, m at next level, right associativity) : stdpp_scope.
Notation "m ;;; k" := (bind m (λ _, k))
  (at level 100, right associativity) : stdpp_scope.

(** [l[-n:]] on a list. *)
Definition slice_last {A} (n : nat) (l : list A) : list A :=
  match n with
  | O => l
  | _ => drop (length l - n) l
  end.

(** [min(keys)] on strings: Python compares [str] by code point,
    lexicographically, and keeps the first least element. *)
Definition py_min (ks : list string) : option string :=
  match ks with
  | [] => None
  | k :: ks' => Some (foldl (λ m x, if String.ltb x m then x else m) k ks')
  end.

(** ** controller.py: [SandboxController] *)

Module Controller.

Inductive ControlCommand := START | PAUSE | RESUME | STOP | RESET | SAVE | LOAD.

(** [command.value] *)
Definition value (c : ControlCommand) : string :=
  match c with
  | START => "start" | PAUSE => "pause" | RESUME => "resume" | STOP => "stop"
  | RESET => "reset" | SAVE => "save" | LOAD => "load"
  end.

Inductive SimulationState := INITIALIZING | RUNNING | PAUSED | STOPPED | ERROR.

Global Instance SimulationState_eq_dec : EqDecision SimulationState.
Proof. solve_decision. Defined.

(** [params: Dict = None]: absent, or a dictionary of string fields. *)
Definition Params := option (gmap string string).

(** [if params:] *)
Definition params_truthy (params : Params) : bool :=
  match params with
  | None => false
  | Some d => negb (bool_decide (d = ∅))
  end.

(** The result dictionaries the controller builds, by shape:
    - [Fail r]            is [{'success': False, 'reason': r}],
    - [CommandFail c r]   is [{'success': False, 'command': c}] with the
                          key ['reason'] added when [r] is [Some _],
    - [StartOk i t]       is [{'success': True, 'simulation_id': i, 'start_time': t}],
    - [SnapshotOk k t]    is [{'success': True, 'save_id': k, 'timestamp': t}],
    - [StateOk st]        is [{'success': True, 'state': st}]. *)
Inductive Result :=
| Fail (reason : string)
| CommandFail (command : string) (reason : option string)
| StartOk (simulation_id : string) (start_time : datetime)
| SnapshotOk (save_id : string) (timestamp : datetime)
| StateOk (st : SimulationState).

Definition success (r : Result) : bool :=
  match r with
  | Fail _ | CommandFail _ _ => false
  | StartOk _ _ | SnapshotOk _ _ | StateOk _ => true
  end.

Definition reason (r : Result) : option string :=
  match r with
  | Fail x => Some x
  | CommandFail _ x => x
  | _ => None
  end.

(** [result['reason'] = msg] *)
Definition set_reason (msg : string) (r : Result) : Result :=
  match r with
  | CommandFail c _ => CommandFail c (Some msg)
  | _ => r
  end.

Record CommandLogEntry := mkEntry {
  timestamp : datetime;
  command : string;
  params : Params;
  result : Result }.

(** The readings of the wall clock made during one call, one field per
    reading: [datetime.now()] in [_start_simulation], the string
    [str(datetime.now().timestamp())] and the result timestamp in
    [_save_state] / [_load_state], and [datetime.now()] in [_log_command]. *)
Record Clock := mkClock {
  now_start : datetime;
  now_save_id : string;
  now_result : datetime;
  now_log : datetime }.

Definition MAX_HISTORY_ENTRIES : nat := 1000.
Definition MAX_SAVE_STATES : nat := 10.

Section Controller.

(** The simulation object is duck-typed: the controller reads and writes
    its attribute [state], reads [simulation_id], and calls [get_state()]
    and [set_state(blob)]. [D] is whatever else the object holds and
    [Blob] is what [get_state()] returns. *)
Context {D Blob : Type}.

Record Simulation := mkSimulation {
  simulation_id : string;
  state : SimulationState;
  data : D }.

Definition set_state_attr (st : SimulationState) (sim : Simulation) : Simulation :=
  mkSimulation (simulation_id sim) st (data sim).

(** The methods of the simulation object, and the five methods that
    [SandboxController] calls on itself without defining them
    ([_apply_simulation_params], [_pause_simulation], [_resume_simulation],
    [_stop_simulation], [_reset_simulation]); the latter are taken, like
    the handler that is defined, to act on the simulation. Each may return
    or raise. *)
Record Methods := mkMethods {
  get_state : M Simulation Blob;
  set_state : Blob → M Simulation unit;
  _apply_simulation_params : gmap string string → M Simulation unit;
  _pause_simulation : M Simulation Result;
  _resume_simulation : M Simulation Result;
  _stop_simulation : M Simulation Result;
  _reset_simulation : M Simulation Result }.

Context (meth : Methods).

Record SandboxController := mkController {
  simulation : Simulation;
  command_history : list CommandLogEntry;
  save_states : gmap string Blob;
  is_processing : bool;
  last_update : datetime;
  error_count : nat }.

(** [SandboxController.__init__] *)
Definition init (sim : Simulation) (now : datetime) : SandboxController :=
  mkController sim [] ∅ false now 0.

Definition with_simulation (sim : Simulation) (c : SandboxController) :=
  mkController sim (command_history c) (save_states c) (is_processing c)
    (last_update c) (error_count c).
Definition with_command_history (h : list CommandLogEntry) (c : SandboxController) :=
  mkController (simulation c) h (save_states c) (is_processing c)
    (last_update c) (error_count c).
Definition with_save_states (m : gmap string Blob) (c : SandboxController) :=
  mkController (simulation c) (command_history c) m (is_processing c)
    (last_update c) (error_count c).
Definition with_is_processing (b : bool) (c : SandboxController) :=
  mkController (simulation c) (command_history c) (save_states c) b
    (last_update c) (error_count c).
Definition with_last_update (t : datetime) (c : SandboxController) :=
  mkController (simulation c) (command_history c) (save_states c) (is_processing c)
    t (error_count c).
Definition with_error_count (n : nat) (c : SandboxController) :=
  mkController (simulation c) (command_history c) (save_states c) (is_processing c)
    (last_update c) n.

(** Both bounds of the controller. *)
Definition bounded (c : SandboxController) : Prop :=
  length (command_history c) ≤ MAX_HISTORY_ENTRIES ∧
  size (save_states c) ≤ MAX_SAVE_STATES.

(** A method call on [self.simulation]. *)
Definition on_simulation {A} (m : M Simulation A) : M SandboxController A :=
  λ c, let '(r, sim') := m (simulation c) in (r, with_simulation sim' c).

Definition _trim_history : M SandboxController unit :=
  modify (λ c,
    if decide (MAX_HISTORY_ENTRIES < length (command_history c))
    then with_command_history (slice_last MAX_HISTORY_ENTRIES (command_history c)) c
    else c).

Definition _trim_save_states : M SandboxController unit :=
  c <- get ;;
  if decide (MAX_SAVE_STATES < size (save_states c))
  then match py_min (map_to_list (save_states c)).*1 with
       | Some oldest_save => modify (with_save_states (delete oldest_save (save_states c)))
       | None => raise (mkException "ValueError" "min() arg is an empty sequence")
       end
  else ret tt.

Definition _start_simulation (params : Params) (clk : Clock) : M SandboxController Result :=
  c <- get ;;
  if decide (state (simulation c) ≠ INITIALIZING)
  then ret (Fail "Simulation already started")
  else
    try_except
      ((match params with
        | Some d => if params_truthy params
                    then on_simulation (_apply_simulation_params meth d)
                    else ret tt
        | None => ret tt
        end) ;;;
       modify (λ c, with_simulation (set_state_attr RUNNING (simulation c)) c) ;;;
       modify (with_last_update (now_start clk)) ;;;
       c <- get ;;
       ret (StartOk (simulation_id (simulation c)) (last_update c)))
      (λ e,
       modify (λ c, with_simulation (set_state_attr ERROR (simulation c)) c) ;;;
       raise e).

Definition _save_state (params : Params) (clk : Clock) : M SandboxController Result :=
  let save_id := now_save_id clk in
  try_except
    (state_data <- on_simulation (get_state meth) ;;
     modify (λ c, with_save_states (<[save_id := state_data]> (save_states c)) c) ;;;
     _trim_save_states ;;;
     ret (SnapshotOk save_id (now_result clk)))
    (λ e, ret (Fail (str_exc e))).

Definition _load_state (params : Params) (clk : Clock) : M SandboxController Result :=
  match params with
  | None => raise (AttributeError "NoneType" "get")
  | Some d =>
    c <- get ;;
    match d !! "save_id" with
    | Some save_id =>
      if negb (str_truthy save_id) then ret (Fail "Save state not found")
      else match save_states c !! save_id with
           | None => ret (Fail "Save state not found")
           | Some state_data =>
             try_except
               (on_simulation (set_state meth state_data) ;;;
                ret (SnapshotOk save_id (now_result clk)))
               (λ e, ret (Fail (str_exc e)))
           end
    | None => ret (Fail "Save state not found")
    end
  end.

Definition _log_command (cmd : ControlCommand) (params : Params) (res : Result)
    (clk : Clock) : M SandboxController unit :=
  let log_entry := mkEntry (now_log clk) (value cmd) params res in
  modify (λ c, with_command_history (command_history c ++ [log_entry]) c).

(** The [if]/[elif] chain of [execute_command]. *)
Definition dispatch (cmd : ControlCommand) (params : Params) (clk : Clock)
    : M SandboxController Result :=
  match cmd with
  | START => _start_simulation params clk
  | PAUSE => on_simulation (_pause_simulation meth)
  | RESUME => on_simulation (_resume_simulation meth)
  | STOP => on_simulation (_stop_simulation meth)
  | RESET => on_simulation (_reset_simulation meth)
  | SAVE => _save_state params clk
  | LOAD => _load_state params clk
  end.

(** [execute_command]. The body runs under [self._lock], so calls do not
    interleave and one call is one step of the controller. The local
    variable [result] holds the initial dictionary until a handler has
    returned; only handlers raise, so that is the dictionary the [except]
    clause adds ['reason'] to. *)
Definition execute_command (cmd : ControlCommand) (params : Params) (clk : Clock)
    : M SandboxController Result :=
  c <- get ;;
  if is_processing c then ret (Fail "Controller is busy")
  else
    modify (with_is_processing true) ;;;
    let result0 := CommandFail (value cmd) None in
    try_finally
      (try_except
         (res <- dispatch cmd params clk ;;
          _log_command cmd params res clk ;;;
          _trim_history ;;;
          ret res)
         (λ e,
          modify (λ c, with_error_count (S (error_count c)) c) ;;;
          ret (set_reason (str_exc e) result0)))
      (with_is_processing false).

(** A call as a value, and a run of calls. *)
Record Call := mkCall {
  call_command : ControlCommand;
  call_params : Params;
  call_clock : Clock }.

Definition step (c : SandboxController) (k : Call) : SandboxController :=
  snd (execute_command (call_command k) (call_params k) (call_clock k) c).

(** The controller states after each call of a run, in order. *)
Fixpoint trace (c : SandboxController) (calls : list Call) : list SandboxController :=
  match calls with
  | [] => []
  | k :: ks => step c k :: trace (step c k) ks
  end.

Definition run (c : SandboxController) (calls : list Call) : SandboxController :=
  foldl step c calls.

End Controller.

Arguments Simulation : clear implicits.
Arguments Methods : clear implicits.
Arguments SandboxController : clear implicits.

(** *** The simulation objects the repository passes to the controller *)

(** A call of a method the class does not define. *)
Definition missing {S A} (cls attr : string) : M S A := raise (AttributeError cls attr).

(** [tests/test_critical_fixes.py], class [MockSimulation]: [get_state]
    returns [{"test": "state"}] and [set_state] is [pass]. The five
    controller methods are the undefined ones of [SandboxController]. *)
Definition MockSimulation_methods : Methods unit (gmap string string) :=
  mkMethods
    (ret {[ "test" := "state" ]})
    (λ _, ret tt)
    (λ _, missing "SandboxController" "_apply_simulation_params")
    (missing "SandboxController" "_pause_simulation")
    (missing "SandboxController" "_resume_simulation")
    (missing "SandboxController" "_stop_simulation")
    (missing "SandboxController" "_reset_simulation").

(** [MockSimulation.__init__] *)
Definition MockSimulation : Simulation unit :=
  mkSimulation "test_sim_001" INITIALIZING tt.

(** [simulation.py], class [SandboxSimulation], seen from the controller:
    the class defines neither [get_state] nor [set_state]. *)
Definition SandboxSimulation_methods {D} : Methods D unit :=
  mkMethods
    (missing "SandboxSimulation" "get_state")
    (λ _, missing "SandboxSimulation" "set_state")
    (λ _, missing "SandboxController" "_apply_simulation_params")
    (missing "SandboxController" "_pause_simulation")
    (missing "SandboxController" "_resume_simulation")
    (missing "SandboxController" "_stop_simulation")
    (missing "SandboxController" "_reset_simulation").

(** *** Runs of the controller on a [MockSimulation] *)

(** The clock readings of a call made at [t] microseconds, where
    [str(datetime.now().timestamp())] reads [save_id]. *)
Definition at_time (t : datetime) (save_id : string) : Clock := mkClock t save_id t t.

Definition save_at (t : datetime) (save_id : string) : Call :=
  mkCall SAVE None (at_time t save_id).

Definition fresh_mock : SandboxController unit (gmap string string) :=
  init MockSimulation 0.

(** A controller constructed on the repository's [SandboxSimulation]. The
    [state] of that object is a member of the enum that simulation.py
    declares, a class of its own, which compares unequal to every member
    of the controller's enum. The controller reads [state] only to compare
    it with its own [INITIALIZING]; the foreign member is rendered by
    [STOPPED], which compares unequal as well and which the controller
    never assigns. *)
Definition fresh_sandbox : SandboxController unit unit :=
  init (mkSimulation "sim" STOPPED tt) 0.

(** Ten Saves one second apart, the last half a second before the clock
    shows 1000000000 seconds. *)
Definition saves_before_rollover : list Call :=
  [save_at 999999990500000 "999999990.5";
   save_at 999999991500000 "999999991.5";
   save_at 999999992500000 "999999992.5";
   save_at 999999993500000 "999999993.5";
   save_at 999999994500000 "999999994.5";
   save_at 999999995500000 "999999995.5";
   save_at 999999996500000 "999999996.5";
   save_at 999999997500000 "999999997.5";
   save_at 999999998500000 "999999998.5";
   save_at 999999999500000 "999999999.5"].

(** The controller as the source has it, on any simulation object: the
    five methods it calls on itself are not defined. *)
Definition methods_as_written {D Blob} (get_state : M (Simulation D) Blob)
    (set_state : Blob → M (Simulation D) unit) : Methods D Blob :=
  mkMethods get_state set_state
    (λ _, missing "SandboxController" "_apply_simulation_params")
    (missing "SandboxController" "_pause_simulation")
    (missing "SandboxController" "_resume_simulation")
    (missing "SandboxController" "_stop_simulation")
    (missing "SandboxController" "_reset_simulation").

(** Ten Saves one second apart; afterwards the wall clock is set back. *)
Definition saves_before_step_back : list Call :=
  [save_at 1700000001500000 "1700000001.5";
   save_at 1700000002500000 "1700000002.5";
   save_at 1700000003500000 "1700000003.5";
   save_at 1700000004500000 "1700000004.5";
   save_at 1700000005500000 "1700000005.5";
   save_at 1700000006500000 "1700000006.5";
   save_at 1700000007500000 "1700000007.5";
   save_at 1700000008500000 "1700000008.5";
   save_at 1700000009500000 "1700000009.5";
   save_at 1700000010500000 "1700000010.5"].

End Controller.

(** ** simulation.py: [SandboxSimulation.update] *)

Module Simulation.

Inductive SimulationState := INITIALIZING | RUNNING | PAUSED | STOPPED | ERROR.

Global Instance SimulationState_eq_dec : EqDecision SimulationState.
Proof. solve_decision. Defined.

(** [f'{self.state}']: an [Enum] member formats as [ClassName.MEMBER]. *)
Definition str_state (st : SimulationState) : string :=
  match st with
  | INITIALIZING => "SimulationState.INITIALIZING"
  | RUNNING => "SimulationState.RUNNING"
  | PAUSED => "SimulationState.PAUSED"
  | STOPPED => "SimulationState.STOPPED"
  | ERROR => "SimulationState.ERROR"
  end.

(** The calls made by the [try] block of [update], in program order. *)
Inductive Phase :=
| PreUpdate | EnvironmentUpdate | PhysicsUpdate | UpdateAgents | ResolveCombat
| UpdateSocial | UpdateFactions | PostUpdate | CollectEvents | UpdateMetrics.

Global Instance Phase_eq_dec : EqDecision Phase.
Proof. solve_decision. Defined.

Global Instance Phase_inhabited : Inhabited Phase := populate PreUpdate.

Definition tick_order : list Phase :=
  [PreUpdate; EnvironmentUpdate; PhysicsUpdate; UpdateAgents; ResolveCombat;
   UpdateSocial; UpdateFactions; PostUpdate; CollectEvents; UpdateMetrics].

(** The record of the calls one tick made: each phase that was invoked,
    with the exception it raised if it raised one. It is an observation of
    the control flow, not a field of the object. *)
Definition CallLog := list (Phase * option PyException).

(** The call log of phases that all returned. *)
Definition returned (ps : list Phase) : CallLog := (λ p, (p, None)) <$> ps.

(** The calls that come before a given one in the [try] block. *)
Definition calls_before (p : Phase) : list Phase :=
  match p with
  | PreUpdate => []
  | EnvironmentUpdate => [PreUpdate]
  | PhysicsUpdate => [PreUpdate; EnvironmentUpdate]
  | UpdateAgents => [PreUpdate; EnvironmentUpdate; PhysicsUpdate]
  | ResolveCombat => [PreUpdate; EnvironmentUpdate; PhysicsUpdate; UpdateAgents]
  | UpdateSocial =>
      [PreUpdate; EnvironmentUpdate; PhysicsUpdate; UpdateAgents; ResolveCombat]
  | UpdateFactions =>
      [PreUpdate; EnvironmentUpdate; PhysicsUpdate; UpdateAgents; ResolveCombat;
       UpdateSocial]
  | PostUpdate =>
      [PreUpdate; EnvironmentUpdate; PhysicsUpdate; UpdateAgents; ResolveCombat;
       UpdateSocial; UpdateFactions]
  | CollectEvents =>
      [PreUpdate; EnvironmentUpdate; PhysicsUpdate; UpdateAgents; ResolveCombat;
       UpdateSocial; UpdateFactions; PostUpdate]
  | UpdateMetrics =>
      [PreUpdate; EnvironmentUpdate; PhysicsUpdate; UpdateAgents; ResolveCombat;
       UpdateSocial; UpdateFactions; PostUpdate; CollectEvents]
  end.

Section Simulation.

(** [time] stands for Python's [float] with its [+] and [*]; [World] is
    everything the subsystems own (environment, physics, agents, managers,
    stats, event log); [Upd] is what a subsystem update returns. *)
Context {time World Upd Event Metric : Type}.
Context (time_add time_mul : time → time → time).

(** The subsystem calls of one tick. They act on [World]; the fields
    [state], [current_time] and [time_scale] are written by [update] alone. *)
Record Subsystems := mkSubsystems {
  _pre_update : time → M World unit;
  environment_update : time → M World Upd;
  physics_update : time → M World Upd;
  _update_agents : time → M World Upd;
  _resolve_combat : time → M World Upd;
  _update_social : time → M World Upd;
  _update_factions : time → M World Upd;
  _post_update : time → M World unit;
  _collect_events : Upd → Upd → Upd → Upd → Upd → Upd → M World (list Event);
  _update_metrics : gmap string Metric → M World (gmap string Metric) }.

Context (sub : Subsystems).

Record SandboxSimulation := mkSim {
  state : SimulationState;
  current_time : time;
  time_scale : time;
  world : World }.

(** The dictionary [updates]. *)
Record Updates := mkUpdates {
  upd_time : time;
  upd_events : list Event;
  upd_metrics : gmap string Metric }.

Inductive Result :=
| Failure (reason : string)
| Success (updates : Updates).

Definition success (r : Result) : bool :=
  match r with Success _ => true | Failure _ => false end.

(** One call made inside the [try] block, recorded in the call log. *)
Definition invoke {A} (p : Phase) (m : M World A) : M (World * CallLog) A :=
  λ '(w, log),
    match m w with
    | (inr a, w') => (inr a, (w', log ++ [(p, None)]))
    | (inl e, w') => (inl e, (w', log ++ [(p, Some e)]))
    end.

(** The [try] block of [update] up to, and without, the clock update. *)
Definition tick (scaled_delta : time) (time0 : time) : M (World * CallLog) Updates :=
  invoke PreUpdate (_pre_update sub scaled_delta) ;;;
  env_updates <- invoke EnvironmentUpdate (environment_update sub scaled_delta) ;;
  physics_updates <- invoke PhysicsUpdate (physics_update sub scaled_delta) ;;
  agent_updates <- invoke UpdateAgents (_update_agents sub scaled_delta) ;;
  combat_updates <- invoke ResolveCombat (_resolve_combat sub scaled_delta) ;;
  social_updates <- invoke UpdateSocial (_update_social sub scaled_delta) ;;
  faction_updates <- invoke UpdateFactions (_update_factions sub scaled_delta) ;;
  invoke PostUpdate (_post_update sub scaled_delta) ;;;
  events <- invoke CollectEvents
              (_collect_events sub env_updates physics_updates agent_updates
                 combat_updates social_updates faction_updates) ;;
  metrics <- invoke UpdateMetrics (_update_metrics sub ∅) ;;
  ret (mkUpdates time0 ([] ++ events) metrics).

(** [update(delta_time)]: the result, the object afterwards, and the call
    log of the tick. *)
Definition update (delta_time : time) (s : SandboxSimulation)
    : Result * SandboxSimulation * CallLog :=
  if decide (state s ≠ RUNNING)
  then (Failure ("Simulation not running: " +:+ str_state (state s)), s, [])
  else
    let scaled_delta := time_mul delta_time (time_scale s) in
    match tick scaled_delta (current_time s) (world s, []) with
    | (inr updates, (w, log)) =>
        (Success updates,
         mkSim (state s) (time_add (current_time s) scaled_delta) (time_scale s) w,
         log)
    | (inl e, (w, log)) =>
        (Failure (str_exc e),
         mkSim ERROR (current_time s) (time_scale s) w,
         log)
    end.

(** Successive [update] calls: the results, and the object at the end. *)
Fixpoint updates (deltas : list time) (s : SandboxSimulation)
    : list Result * SandboxSimulation :=
  match deltas with
  | [] => ([], s)
  | d :: ds =>
      let '(r, s', _) := update d s in
      let '(rs, s'') := updates ds s' in
      (r :: rs, s'')
  end.

(** *** The calls of a tick, one by one

    What the subsystems do, stated on the subsystem calls themselves:
    [sd] is the scaled delta the calls receive and [w] the world the tick
    starts in. Each relation names the values the calls so far returned
    and the world the last of them left. *)

Definition pre_update_returned (sd : time) (w w1 : World) : Prop :=
  _pre_update sub sd w = (inr tt, w1).

Definition environment_returned (sd : time) (w : World) (u1 : Upd) (w2 : World) : Prop :=
  ∃ w1, pre_update_returned sd w w1 ∧ environment_update sub sd w1 = (inr u1, w2).

Definition physics_returned (sd : time) (w : World) (u1 u2 : Upd) (w3 : World) : Prop :=
  ∃ w2, environment_returned sd w u1 w2 ∧ physics_update sub sd w2 = (inr u2, w3).

Definition agents_returned (sd : time) (w : World) (u1 u2 u3 : Upd) (w4 : World) : Prop :=
  ∃ w3, physics_returned sd w u1 u2 w3 ∧ _update_agents sub sd w3 = (inr u3, w4).

Definition combat_returned (sd : time) (w : World) (u1 u2 u3 u4 : Upd) (w5 : World) : Prop :=
  ∃ w4, agents_returned sd w u1 u2 u3 w4 ∧ _resolve_combat sub sd w4 = (inr u4, w5).

Definition social_returned (sd : time) (w : World) (u1 u2 u3 u4 u5 : Upd) (w6 : World) : Prop :=
  ∃ w5, combat_returned sd w u1 u2 u3 u4 w5 ∧ _update_social sub sd w5 = (inr u5, w6).

Definition factions_returned (sd : time) (w : World) (u1 u2 u3 u4 u5 u6 : Upd)
    (w7 : World) : Prop :=
  ∃ w6, social_returned sd w u1 u2 u3 u4 u5 w6 ∧ _update_factions sub sd w6 = (inr u6, w7).

Definition post_update_returned (sd : time) (w : World) (u1 u2 u3 u4 u5 u6 : Upd)
    (w8 : World) : Prop :=
  ∃ w7, factions_returned sd w u1 u2 u3 u4 u5 u6 w7 ∧ _post_update sub sd w7 = (inr tt, w8).

Definition events_collected (sd : time) (w : World) (events : list Event)
    (w9 : World) : Prop :=
  ∃ u1 u2 u3 u4 u5 u6 w8,
    post_update_returned sd w u1 u2 u3 u4 u5 u6 w8 ∧
    _collect_events sub u1 u2 u3 u4 u5 u6 w8 = (inr events, w9).

(** [raises_at sd w p e w']: in a tick that starts in the world [w], the
    calls before [p] all return, and the call [p], made in the world they
    left, raises [e] and leaves the world [w']. *)
Definition raises_at (sd : time) (w : World) (p : Phase) (e : PyException)
    (w' : World) : Prop :=
  match p with
  | PreUpdate => _pre_update sub sd w = (inl e, w')
  | EnvironmentUpdate =>
      ∃ w1, pre_update_returned sd w w1 ∧ environment_update sub sd w1 = (inl e, w')
  | PhysicsUpdate =>
      ∃ u1 w2, environment_returned sd w u1 w2 ∧ physics_update sub sd w2 = (inl e, w')
  | UpdateAgents =>
      ∃ u1 u2 w3, physics_returned sd w u1 u2 w3 ∧ _update_agents sub sd w3 = (inl e, w')
  | ResolveCombat =>
      ∃ u1 u2 u3 w4,
        agents_returned sd w u1 u2 u3 w4 ∧ _resolve_combat sub sd w4 = (inl e, w')
  | UpdateSocial =>
      ∃ u1 u2 u3 u4 w5,
        combat_returned sd w u1 u2 u3 u4 w5 ∧ _update_social sub sd w5 = (inl e, w')
  | UpdateFactions =>
      ∃ u1 u2 u3 u4 u5 w6,
        social_returned sd w u1 u2 u3 u4 u5 w6 ∧ _update_factions sub sd w6 = (inl e, w')
  | PostUpdate =>
      ∃ u1 u2 u3 u4 u5 u6 w7,
        factions_returned sd w u1 u2 u3 u4 u5 u6 w7 ∧ _post_update sub sd w7 = (inl e, w')
  | CollectEvents =>
      ∃ u1 u2 u3 u4 u5 u6 w8,
        post_update_returned sd w u1 u2 u3 u4 u5 u6 w8 ∧
        _collect_events sub u1 u2 u3 u4 u5 u6 w8 = (inl e, w')
  | UpdateMetrics =>
      ∃ events w9, events_collected sd w events w9 ∧ _update_metrics sub ∅ w9 = (inl e, w')
  end.

End Simulation.

Arguments Subsystems : clear implicits.
Arguments SandboxSimulation : clear implicits.
Arguments Updates : clear implicits.
Arguments Result : clear implicits.

(** A test double in the manner of [MockSimulation]: every subsystem
    appends its name to the world, and combat resolution raises. Time is
    counted in whole milliseconds. *)
Definition note (name : string) : M (list string) unit :=
  modify (λ w, w ++ [name]).

Definition failing_combat : Subsystems Z (list string) unit string Z :=
  mkSubsystems
    (λ _, note "pre")
    (λ _, note "environment")
    (λ _, note "physics")
    (λ _, note "agents")
    (λ _, note "combat" ;;; raise (mkException "RuntimeError" "combat failed"))
    (λ _, note "social")
    (λ _, note "factions")
    (λ _, note "post")
    (λ _ _ _ _ _ _, ret [])
    (λ m, ret m).

(** The same double with a combat resolution that returns. *)
Definition all_fine : Subsystems Z (list string) unit string Z :=
  mkSubsystems
    (λ _, note "pre")
    (λ _, note "environment")
    (λ _, note "physics")
    (λ _, note "agents")
    (λ _, note "combat")
    (λ _, note "social")
    (λ _, note "factions")
    (λ _, note "post")
    (λ _ _ _ _ _ _, ret ["tick"])
    (λ m, ret m).

(** A running simulation at time 0 with time scale 1, and a paused one. *)
Definition running : SandboxSimulation Z (list string) := mkSim RUNNING 0%Z 1%Z [].
Definition paused : SandboxSimulation Z (list string) := mkSim PAUSED 0%Z 1%Z [].

Definition combat_failed : PyException := mkException "RuntimeError" "combat failed".

(** The double with [_pre_update] as the class has it: not defined. *)
Definition without_pre_update : Subsystems Z (list string) unit string Z :=
  mkSubsystems
    (λ _, raise (AttributeError "SandboxSimulation" "_pre_update"))
    (λ _, note "environment")
    (λ _, note "physics")
    (λ _, note "agents")
    (λ _, note "combat")
    (λ _, note "social")
    (λ _, note "factions")
    (λ _, note "post")
    (λ _ _ _ _ _ _, ret ["tick"])
    (λ m, ret m).

End Simulation.

(** ** agent_interface.py: [AgentInterface] *)

Module AgentInterface.

Inductive AgentState := INITIALIZING | ACTIVE | INACTIVE | DISCONNECTED | ERROR.

Global Instance AgentState_eq_dec : EqDecision AgentState.
Proof. solve_decision. Defined.

(** An agent descriptor: a dictionary of string fields. *)
Definition AgentData := gmap string string.

(** A value passed as an event handler; [callable(handler)] tells the two
    kinds apart. *)
Inductive Handler := Function (name : string) | NotCallable (repr : string).

Definition callable (h : Handler) : bool :=
  match h with Function _ => true | NotCallable _ => false end.

(** [weakref.ref(connection_obj)] *)
Inductive Connection := Weakref.

Inductive Result :=
| Fail (reason : string)
| Registered (agent_id : string) (timestamp : datetime)
| Connected (connection : Connection) (session_stamp : datetime) (agent_id : string)
| HandlerRegistered (agent_id event_type : string).

Definition success (r : Result) : bool :=
  match r with Fail _ => false | _ => true end.

(** The object. [lock] tells whether [self._lock], a non-reentrant
    [threading.Lock], is held. *)
Record AgentInterface := mkInterface {
  MAX_CONNECTIONS : nat;
  CONNECTION_TIMEOUT : Z;
  CLEANUP_INTERVAL : Z;
  lock : bool;
  registered_agents : gmap string AgentData;
  agent_states : gmap string AgentState;
  active_connections : gmap string Connection;
  connection_timestamps : gmap string datetime;
  event_handlers : gmap string (gmap string Handler);
  last_event_time : gmap string datetime }.

(** [AgentInterface.__init__] *)
Definition init : AgentInterface :=
  mkInterface 1000 30 300 false ∅ ∅ ∅ ∅ ∅ ∅.

Definition with_lock_flag (b : bool) (s : AgentInterface) : AgentInterface :=
  mkInterface (MAX_CONNECTIONS s) (CONNECTION_TIMEOUT s) (CLEANUP_INTERVAL s) b
    (registered_agents s) (agent_states s) (active_connections s)
    (connection_timestamps s) (event_handlers s) (last_event_time s).
Definition with_registered_agents (m : gmap string AgentData) (s : AgentInterface) :=
  mkInterface (MAX_CONNECTIONS s) (CONNECTION_TIMEOUT s) (CLEANUP_INTERVAL s) (lock s)
    m (agent_states s) (active_connections s)
    (connection_timestamps s) (event_handlers s) (last_event_time s).
Definition with_agent_states (m : gmap string AgentState) (s : AgentInterface) :=
  mkInterface (MAX_CONNECTIONS s) (CONNECTION_TIMEOUT s) (CLEANUP_INTERVAL s) (lock s)
    (registered_agents s) m (active_connections s)
    (connection_timestamps s) (event_handlers s) (last_event_time s).
Definition with_active_connections (m : gmap string Connection) (s : AgentInterface) :=
  mkInterface (MAX_CONNECTIONS s) (CONNECTION_TIMEOUT s) (CLEANUP_INTERVAL s) (lock s)
    (registered_agents s) (agent_states s) m
    (connection_timestamps s) (event_handlers s) (last_event_time s).
Definition with_connection_timestamps (m : gmap string datetime) (s : AgentInterface) :=
  mkInterface (MAX_CONNECTIONS s) (CONNECTION_TIMEOUT s) (CLEANUP_INTERVAL s) (lock s)
    (registered_agents s) (agent_states s) (active_connections s)
    m (event_handlers s) (last_event_time s).
Definition with_event_handlers (m : gmap string (gmap string Handler)) (s : AgentInterface) :=
  mkInterface (MAX_CONNECTIONS s) (CONNECTION_TIMEOUT s) (CLEANUP_INTERVAL s) (lock s)
    (registered_agents s) (agent_states s) (active_connections s)
    (connection_timestamps s) m (last_event_time s).
Definition with_last_event_time (m : gmap string datetime) (s : AgentInterface) :=
  mkInterface (MAX_CONNECTIONS s) (CONNECTION_TIMEOUT s) (CLEANUP_INTERVAL s) (lock s)
    (registered_agents s) (agent_states s) (active_connections s)
    (connection_timestamps s) (event_handlers s) m.

(** How a method ends: it returns, or the thread waits for ever in
    [Lock.acquire()]; either way the object is left in some state. *)
Inductive Outcome (A : Type) :=
| Done (a : A) (s : AgentInterface)
| Blocked (s : AgentInterface).
Arguments Done {A} a s.
Arguments Blocked {A} s.

Definition Op (A : Type) : Type := AgentInterface → Outcome A.

Definition op_ret {A} (a : A) : Op A := λ s, Done a s.

Definition op_bind {A B} (m : Op A) (k : A → Op B) : Op B :=
  λ s, match m s with
       | Done a s' => k a s'
       | Blocked s' => Blocked s'
       end.

(** [with self._lock: body]. Acquiring a held lock never returns: no code
    of the class releases the lock from elsewhere. Leaving the block, by
    its end or by [return], releases the lock. *)
Definition with_lock {A} (body : Op A) : Op A :=
  λ s, if lock s then Blocked s
       else match body (with_lock_flag true s) with
            | Done a s' => Done a (with_lock_flag false s')
            | Blocked s' => Blocked s'
            end.

(** [for x in xs: body x] *)
Fixpoint for_each {X} (xs : list X) (body : X → Op unit) : Op unit :=
  match xs with
  | [] => op_ret tt
  | x :: xs' => op_bind (body x) (λ _, for_each xs' body)
  end.

(** [(later - earlier).seconds]: the seconds field of the normalised
    [timedelta] (days, seconds, microseconds), between 0 and 86399. *)
Definition timedelta_seconds (later earlier : datetime) : Z :=
  (((later - earlier) `div` 1000000) `mod` 86400)%Z.

(** The whole duration in seconds, [timedelta.total_seconds()], rounded
    down; the idle time of a connection. *)
Definition idle_seconds (now stamp : datetime) : Z :=
  ((now - stamp) `div` 1000000)%Z.

Definition register_agent (agent_data : AgentData) (now : datetime) : Op Result :=
  with_lock (λ s,
    match agent_data !! "id" with
    | None => Done (Fail "No agent ID provided") s
    | Some agent_id =>
      if negb (str_truthy agent_id) then Done (Fail "No agent ID provided") s
      else if decide (MAX_CONNECTIONS s ≤ size (registered_agents s))
      then Done (Fail "Maximum connections reached") s
      else if decide (is_Some (registered_agents s !! agent_id))
      then Done (Fail "Agent already registered") s
      else Done (Registered agent_id now)
             (with_agent_states (<[agent_id := INITIALIZING]> (agent_states s))
                (with_registered_agents (<[agent_id := agent_data]> (registered_agents s)) s))
    end).

Definition connect_agent (agent_id : string) (now : datetime) : Op Result :=
  with_lock (λ s,
    if decide (is_Some (registered_agents s !! agent_id))
    then Done (Connected Weakref now agent_id)
           (with_active_connections (<[agent_id := Weakref]> (active_connections s))
              (with_connection_timestamps (<[agent_id := now]> (connection_timestamps s))
                 (with_agent_states (<[agent_id := ACTIVE]> (agent_states s)) s)))
    else Done (Fail "Agent not registered") s).

Definition _disconnect_agent (agent_id : string) : Op unit :=
  with_lock (λ s,
    let s1 := with_active_connections (delete agent_id (active_connections s)) s in
    let s2 := with_connection_timestamps (delete agent_id (connection_timestamps s1)) s1 in
    let s3 := if decide (is_Some (agent_states s2 !! agent_id))
              then with_agent_states (<[agent_id := DISCONNECTED]> (agent_states s2)) s2
              else s2 in
    Done tt s3).

Definition _cleanup_inactive_connections (current_time : datetime) : Op unit :=
  with_lock (λ s,
    for_each (map_to_list (connection_timestamps s))
      (λ '(agent_id, timestamp),
         if decide (CONNECTION_TIMEOUT s < timedelta_seconds current_time timestamp)%Z
         then _disconnect_agent agent_id
         else op_ret tt)
      s).

Definition _cleanup_old_events : Op unit :=
  with_lock (λ s,
    for_each (map_to_list (event_handlers s)).*1
      (λ agent_id s',
         if decide (is_Some (registered_agents s' !! agent_id))
         then Done tt s'
         else Done tt (with_event_handlers (delete agent_id (event_handlers s')) s'))
      s).

Definition register_event_handler (agent_id event_type : string) (handler : Handler)
    (now : datetime) : Op Result :=
  with_lock (λ s,
    if decide (is_Some (registered_agents s !! agent_id))
    then if callable handler
         then let table := default ∅ (event_handlers s !! agent_id) in
              Done (HandlerRegistered agent_id event_type)
                (with_last_event_time (<[agent_id := now]> (last_event_time s))
                   (with_event_handlers
                      (<[agent_id := <[event_type := handler]> table]> (event_handlers s)) s))
         else Done (Fail "Invalid handler") s
    else Done (Fail "Agent not found") s).

(** One pass of the janitor: the body of the loop of [_periodic_cleanup]
    after its sleep. *)
Definition janitor_pass (current_time : datetime) : Op unit :=
  op_bind (_cleanup_inactive_connections current_time) (λ _, _cleanup_old_events).


(** The descriptor [{'id': agent_id}]. *)
Definition descriptor (agent_id : string) : AgentData := {[ "id" := agent_id ]}.

(** *** Registries used below *)



(** The registry after one agent has registered and connected at [t]. *)
Definition connected_at (t : datetime) : AgentInterface :=
  match register_agent (descriptor "agent_1") t init with
  | Done _ s1 =>
      match connect_agent "agent_1" t s1 with
      | Done _ s2 => s2
      | Blocked s2 => s2
      end
  | Blocked s1 => s1
  end.

(** Durations in microseconds. *)
Definition seconds (n : Z) : Z := (n * 1000000)%Z.
Definition days (n : Z) : Z := (n * 86400 * 1000000)%Z.

(** *** Sequences of calls on the registry *)

(** The handler stored for an agent and an event type:
    [event_handlers[agent_id][event_type]], when both keys exist. *)
Definition handler_of (s : AgentInterface) (agent_id event_type : string)
    : option Handler :=
  event_handlers s !! agent_id ≫= λ table, table !! event_type.

(** The state a call leaves, whether it returned or not. *)
Definition state_of {A} (o : Outcome A) : AgentInterface :=
  match o with Done _ s => s | Blocked s => s end.

(** The methods of the class that change the object, as requests. *)
Inductive Request :=
| Register (agent_data : AgentData) (now : datetime)
| Connect (agent_id : string) (now : datetime)
| Disconnect (agent_id : string)
| RegisterHandler (agent_id event_type : string) (handler : Handler) (now : datetime)
| CleanupInactive (now : datetime)
| CleanupOldEvents.

Definition serve (r : Request) : Op unit :=
  match r with
  | Register d now => op_bind (register_agent d now) (λ _, op_ret tt)
  | Connect a now => op_bind (connect_agent a now) (λ _, op_ret tt)
  | Disconnect a => _disconnect_agent a
  | RegisterHandler a ev h now =>
      op_bind (register_event_handler a ev h now) (λ _, op_ret tt)
  | CleanupInactive now => _cleanup_inactive_connections now
  | CleanupOldEvents => _cleanup_old_events
  end.

Definition serve_all (rs : list Request) : Op unit := for_each rs serve.

(** How the tables of the registry hang together. *)
Definition consistent (s : AgentInterface) : Prop :=
  dom (active_connections s) = dom (connection_timestamps s) ∧
  dom (active_connections s) ⊆ dom (registered_agents s) ∧
  dom (agent_states s) = dom (registered_agents s) ∧
  dom (event_handlers s) ⊆ dom (registered_agents s) ∧
  dom (last_event_time s) = dom (event_handlers s) ∧
  size (registered_agents s) ≤ MAX_CONNECTIONS s.

(** One agent registers, registers a handler, connects and is
    disconnected. *)
Definition one_agent_session : list Request :=
  [Register (descriptor "agent_1") 5;
   RegisterHandler "agent_1" "tick" (Function "on_tick") 6;
   Connect "agent_1" 7;
   Disconnect "agent_1"].

(** The registry after [agent_1] has registered at time 5. *)
Definition one_registered : AgentInterface :=
  state_of (register_agent (descriptor "agent_1") 5 init).

(** A registry that holds a handler table for an agent nobody registered. *)
Definition with_orphan_table : AgentInterface :=
  with_event_handlers {[ "ghost" := {[ "tick" := Function "on_tick" ]} ]} init.

End AgentInterface.

(** ** game.py: [Game.update], the caller of [SandboxSimulation.update] *)

Module Game.

Inductive GameState := INITIALIZING | RUNNING | PAUSED | STOPPED | ERROR.

Global Instance GameState_eq_dec : EqDecision GameState.
Proof. solve_decision. Defined.

(** [f'{self.state}'] *)
Definition str_state (st : GameState) : string :=
  match st with
  | INITIALIZING => "GameState.INITIALIZING"
  | RUNNING => "GameState.RUNNING"
  | PAUSED => "GameState.PAUSED"
  | STOPPED => "GameState.STOPPED"
  | ERROR => "GameState.ERROR"
  end.

Section Game.

(** [GWorld] is what the systems of the game own (environment, physics,
    interaction, relationships, factions, combat, players); the simulation
    is an object of its own with the subsystems [sim_sub]. *)
Context {time GWorld SWorld Upd Event Metric : Type}.
Context (time_add time_mul : time → time → time).
Context (sim_sub : Simulation.Subsystems time SWorld Upd Event Metric).

(** The updates of the game's own systems. Each stands for the call and
    the [.get('events', [])] on the dictionary it returns; the last is
    [_update_performance_metrics], which fills the dictionary it is given. *)
Record Systems := mkSystems {
  environment_update : time → M GWorld (list Event);
  physics_update : time → M GWorld (list Event);
  interaction_update_all : time → M GWorld (list Event);
  relationships_update : time → M GWorld (list Event);
  factions_update : time → M GWorld (list Event);
  combat_update : time → M GWorld (list Event);
  _update_performance_metrics : gmap string Metric → M GWorld (gmap string Metric) }.

Context (sys : Systems).

Record Game := mkGame {
  state : GameState;
  current_time : time;
  time_scale : time;
  simulation : Simulation.SandboxSimulation time SWorld;
  world : GWorld }.

Definition with_state (st : GameState) (g : Game) : Game :=
  mkGame st (current_time g) (time_scale g) (simulation g) (world g).
Definition with_current_time (t : time) (g : Game) : Game :=
  mkGame (state g) t (time_scale g) (simulation g) (world g).
Definition with_simulation (sim : Simulation.SandboxSimulation time SWorld) (g : Game) : Game :=
  mkGame (state g) (current_time g) (time_scale g) sim (world g).
Definition with_world (w : GWorld) (g : Game) : Game :=
  mkGame (state g) (current_time g) (time_scale g) (simulation g) w.

(** A call on one of the game's own systems. *)
Definition on_world {A} (m : M GWorld A) : M Game A :=
  λ g, let '(r, w') := m (world g) in (r, with_world w' g).

(** [self.simulation.update(scaled_delta)]: it returns a dictionary and
    never raises. *)
Definition simulation_update (scaled_delta : time)
    : M Game (Simulation.Result time Event Metric) :=
  λ g, let '(r, sim', _) :=
         Simulation.update time_add time_mul sim_sub scaled_delta (simulation g) in
       (inr r, with_simulation sim' g).

(** [sim_updates.get('events', [])]: the dictionary [update] returns has
    the keys ['success'] and ['reason'], or ['success'] and ['updates'];
    neither has a key ['events']. *)
Definition get_events (sim_updates : Simulation.Result time Event Metric) : list Event :=
  match sim_updates with
  | Simulation.Failure _ => []
  | Simulation.Success _ => []
  end.

(** [_update_core_systems]; [events] is [updates['events']]. *)
Definition _update_core_systems (delta_time : time) (events : list Event)
    : M GWorld (list Event) :=
  env_events <- environment_update sys delta_time ;;
  physics_events <- physics_update sys delta_time ;;
  interaction_events <- interaction_update_all sys delta_time ;;
  ret (((events ++ env_events) ++ physics_events) ++ interaction_events).

(** [_update_social_systems] *)
Definition _update_social_systems (delta_time : time) (events : list Event)
    : M GWorld (list Event) :=
  rel_events <- relationships_update sys delta_time ;;
  faction_events <- factions_update sys delta_time ;;
  ret ((events ++ rel_events) ++ faction_events).

(** [Game.update] *)
Definition update (delta_time : time) (g : Game)
    : Simulation.Result time Event Metric * Game :=
  if decide (state g ≠ RUNNING)
  then (Simulation.Failure ("Game not running: " +:+ str_state (state g)), g)
  else
    let scaled_delta := time_mul delta_time (time_scale g) in
    let body : M Game (Simulation.Updates time Event Metric) :=
      events <- on_world (_update_core_systems scaled_delta []) ;;
      events <- on_world (_update_social_systems scaled_delta events) ;;
      combat_events <- on_world (combat_update sys scaled_delta) ;;
      sim_updates <- simulation_update scaled_delta ;;
      metrics <- on_world (_update_performance_metrics sys ∅) ;;
      modify (λ g', with_current_time (time_add (current_time g') scaled_delta) g') ;;;
      ret (Simulation.mkUpdates (current_time g)
             ((events ++ combat_events) ++ get_events sim_updates) metrics) in
    match body g with
    | (inr updates, g') => (Simulation.Success updates, g')
    | (inl e, g') => (Simulation.Failure (str_exc e), with_state ERROR g')
    end.

(** The part of the game that is not the simulation. *)
Definition own_state (g : Game) : GameState * time * time * GWorld :=
  (state g, current_time g, time_scale g, world g).

End Game.

Arguments Systems : clear implicits.
Arguments Game : clear implicits.

(** A game double: three systems report one event each, and the
    simulation is the double whose combat resolution raises. *)
Definition reporting : Systems Z (list string) string Z :=
  mkSystems
    (λ _, ret ["weather"])
    (λ _, ret ["collision"])
    (λ _, ret [])
    (λ _, ret [])
    (λ _, ret [])
    (λ _, ret ["duel"])
    (λ m, ret m).

Definition running_game (sim : Simulation.SandboxSimulation Z (list string))
    : Game Z (list string) (list string) :=
  mkGame RUNNING 0%Z 1%Z sim [].

End Game.

(** * Properties *)

(** ** Lists and string keys *)

Lemma slice_last_length {A} (n : nat) (l : list A) :
  n ≠ 0 → length (slice_last n l) ≤ n.
Proof.
  intros Hn. destruct n as [|n]; [done|].
  unfold slice_last. rewrite length_drop. lia.
Qed.

Lemma slice_last_suffix {A} (n : nat) (l : list A) : slice_last n l `suffix_of` l.
Proof. destruct n; [done|]. apply suffix_drop. Qed.

Lemma foldl_min_elem (k : string) (ks : list string) :
  foldl (λ m x, if String.ltb x m then x else m) k ks ∈ k :: ks.
Proof.
  revert k. induction ks as [|x ks IH]; intros k; simpl.
  - set_solver.
  - rewrite elem_of_cons. destruct (String.ltb x k).
    + right. apply IH.
    + pose proof (IH k) as [->|?]%elem_of_cons; [by left|].
      right. by apply elem_of_cons; right.
Qed.

Lemma py_min_elem (ks : list string) (k : string) : py_min ks = Some k → k ∈ ks.
Proof.
  destruct ks as [|k0 ks]; simpl; [done|].
  intros [= <-]. apply foldl_min_elem.
Qed.

Lemma py_min_None (ks : list string) : py_min ks = None → ks = [].
Proof. by destruct ks. Qed.

Lemma ltb_le (x m : string) : String.ltb x m = true → String.le x m.
Proof.
  unfold String.ltb, String.le, String.leb. by destruct (String.compare x m).
Qed.

Lemma not_ltb_le (x m : string) : String.ltb x m = false → String.le m x.
Proof.
  unfold String.ltb, String.le, String.leb. rewrite (String.compare_antisym m x).
  by destruct (String.compare x m).
Qed.

(** [min] returns a key that is no greater, as a string, than any other. *)
Lemma foldl_min_least (k : string) (ks : list string) :
  ∀ x, x ∈ k :: ks →
    String.le (foldl (λ m x, if String.ltb x m then x else m) k ks) x.
Proof.
  revert k. induction ks as [|y ks IH]; intros k x Hx; simpl.
  - apply list_elem_of_singleton in Hx as ->. done.
  - destruct (String.ltb y k) eqn:Hlt.
    + apply elem_of_cons in Hx as [->|Hx]; [|by apply IH].
      trans y; [apply IH; by left | by apply ltb_le].
    + apply elem_of_cons in Hx as [->|[->|Hx]%elem_of_cons].
      * apply IH. by left.
      * trans k; [apply IH; by left | by apply not_ltb_le].
      * apply IH. by right.
Qed.

Lemma py_min_least (ks : list string) (k : string) :
  py_min ks = Some k → ∀ x, x ∈ ks → String.le k x.
Proof.
  destruct ks as [|k0 ks]; simpl; [done|].
  intros [= <-]. apply foldl_min_least.
Qed.

(** ** The control plane *)

Section ControllerFacts.

Import Controller.

Context {D Blob : Type} (meth : Methods D Blob).

Ltac unmonad :=
  unfold bind, ret, raise, get, modify, try_except, try_finally, on_simulation in *;
  simpl in *.

Lemma trim_save_states_spec (c : SandboxController D Blob) :
  size (save_states c) ≤ S MAX_SAVE_STATES →
  ∃ c', _trim_save_states c = (inr tt, c') ∧
        size (save_states c') ≤ MAX_SAVE_STATES ∧
        command_history c' = command_history c ∧
        simulation c' = simulation c ∧
        error_count c' = error_count c ∧
        is_processing c' = is_processing c.
Proof.
  intros Hsz. unfold _trim_save_states. unmonad.
  destruct (decide (MAX_SAVE_STATES < size (save_states c))) as [Hgt|Hle].
  - destruct (py_min (map_to_list (save_states c)).*1) as [k|] eqn:Hmin.
    + eexists; split; [reflexivity|]. simpl. split_and!; try done.
      apply py_min_elem in Hmin.
      apply list_elem_of_fmap in Hmin as ([k' v] & -> & Hin).
      apply elem_of_map_to_list in Hin.
      rewrite (map_size_delete_Some k' (save_states c)); [lia|eauto].
    + apply py_min_None, fmap_nil_inv, map_to_list_empty_iff in Hmin.
      rewrite Hmin, map_size_empty in Hgt. unfold MAX_SAVE_STATES in Hgt. lia.
  - eexists; split; [reflexivity|]. split_and!; try done. lia.
Qed.

(** What the eviction removes: the one key that is least as a string. *)
Lemma trim_save_states_evicts_least (c : SandboxController D Blob) :
  MAX_SAVE_STATES < size (save_states c) →
  ∃ k, is_Some (save_states c !! k) ∧
       (∀ k', is_Some (save_states c !! k') → String.le k k') ∧
       save_states (snd (_trim_save_states c)) = delete k (save_states c).
Proof.
  intros Hgt. unfold _trim_save_states. unmonad.
  destruct (decide _) as [_|?]; [|done].
  destruct (py_min (map_to_list (save_states c)).*1) as [k|] eqn:Hmin.
  - exists k. split_and!; [| |done].
    + apply py_min_elem, list_elem_of_fmap in Hmin as ([k' v] & -> & Hin).
      apply elem_of_map_to_list in Hin. eauto.
    + intros k' [v Hv]. apply (py_min_least _ _ Hmin).
      apply list_elem_of_fmap. exists (k', v). split; [done|].
      by apply elem_of_map_to_list.
  - apply py_min_None, fmap_nil_inv, map_to_list_empty_iff in Hmin.
    rewrite Hmin, map_size_empty in Hgt. lia.
Qed.

(** What a handler leaves alone: the command log, the error counter and
    the busy flag; and the snapshot store stays within its bound. *)
Lemma dispatch_frame cmd params clk (c : SandboxController D Blob) :
  ∀ r c', dispatch meth cmd params clk c = (r, c') →
    command_history c' = command_history c ∧
    error_count c' = error_count c ∧
    is_processing c' = is_processing c ∧
    (size (save_states c) ≤ MAX_SAVE_STATES → size (save_states c') ≤ MAX_SAVE_STATES).
Proof.
  intros r c' Hd. destruct cmd; simpl in Hd.
  - (* START *)
    unfold _start_simulation in Hd. unmonad.
    repeat case_match; simplify_eq/=; done.
  - unmonad. destruct (_pause_simulation meth (simulation c)); by simplify_eq/=.
  - unmonad. destruct (_resume_simulation meth (simulation c)); by simplify_eq/=.
  - unmonad. destruct (_stop_simulation meth (simulation c)); by simplify_eq/=.
  - unmonad. destruct (_reset_simulation meth (simulation c)); by simplify_eq/=.
  - (* SAVE *)
    unfold _save_state in Hd. unmonad.
    destruct (get_state meth (simulation c)) as [[e|blob] sim'] eqn:Hg; simpl in Hd.
    + by simplify_eq/=.
    + set (c1 := with_save_states _ _) in Hd.
      destruct (decide (size (save_states c) ≤ MAX_SAVE_STATES)) as [Hle|Hgt].
      * destruct (trim_save_states_spec c1) as (c2 & Ht & Hsz & Hh & Hs & He & Hp).
        { unfold c1; simpl. rewrite map_size_insert.
          destruct (save_states c !! now_save_id clk); simpl; lia. }
        rewrite Ht in Hd. simplify_eq/=. by rewrite Hh, He, Hp.
      * destruct (_trim_save_states c1) as [[e|[]] c2] eqn:Ht;
          unfold _trim_save_states in Ht; unmonad;
          repeat case_match; simplify_eq/=; split_and!; try done.
  - (* LOAD *)
    unfold _load_state in Hd. unmonad.
    repeat case_match; simplify_eq/=; done.
Qed.

(** [execute_command], unfolded once: what it returns and leaves behind,
    by the outcome of the handler. *)
Lemma execute_command_unfold cmd params clk (c : SandboxController D Blob) :
  is_processing c = false →
  execute_command meth cmd params clk c =
    match dispatch meth cmd params clk (with_is_processing true c) with
    | (inr res, c1) =>
        (inr res,
         with_is_processing false
           (snd (_trim_history
              (with_command_history
                 (command_history c1 ++ [mkEntry (now_log clk) (value cmd) params res]) c1))))
    | (inl e, c1) =>
        (inr (CommandFail (value cmd) (Some (str_exc e))),
         with_is_processing false (with_error_count (S (error_count c1)) c1))
    end.
Proof.
  intros Hp. unfold execute_command, _log_command, _trim_history. unmonad. rewrite Hp.
  destruct (dispatch meth cmd params clk (with_is_processing true c)) as [[e|res] c1];
    reflexivity.
Qed.

Lemma execute_command_busy cmd params clk (c : SandboxController D Blob) :
  is_processing c = true →
  execute_command meth cmd params clk c = (inr (Fail "Controller is busy"), c).
Proof. intros Hp. unfold execute_command. unmonad. by rewrite Hp. Qed.

Lemma trim_history_length (c : SandboxController D Blob) :
  length (command_history (snd (_trim_history c))) ≤ MAX_HISTORY_ENTRIES.
Proof.
  unfold _trim_history, modify. cbn [snd].
  case_decide; cbn [command_history with_command_history].
  - by apply slice_last_length.
  - lia.
Qed.

Lemma trim_history_frame (c : SandboxController D Blob) :
  save_states (snd (_trim_history c)) = save_states c ∧
  error_count (snd (_trim_history c)) = error_count c ∧
  simulation (snd (_trim_history c)) = simulation c.
Proof. unfold _trim_history. unmonad. by case_decide. Qed.

Lemma execute_command_bounded cmd params clk (c : SandboxController D Blob) :
  bounded c → bounded (snd (execute_command meth cmd params clk c)).
Proof.
  intros [Hh Hs]. destruct (is_processing c) eqn:Hp.
  - by rewrite execute_command_busy.
  - rewrite execute_command_unfold by done.
    destruct (dispatch _ _ _ _ _) as [[e|res] c1] eqn:Hd;
      apply dispatch_frame in Hd as (Hh1 & He1 & Hp1 & Hs1);
      unfold bounded;
      cbn [snd command_history save_states with_is_processing with_error_count].
    + split; [by rewrite Hh1 | by apply Hs1].
    + split.
      * apply trim_history_length.
      * destruct (trim_history_frame
          (with_command_history
             (command_history c1 ++ [mkEntry (now_log clk) (value cmd) params res]) c1))
          as (-> & _ & _).
        by apply Hs1.
Qed.

Lemma init_bounded (sim : Simulation D) (now : datetime) :
  bounded (init (Blob := Blob) sim now).
Proof. split; simpl; [lia|]. rewrite map_size_empty. lia. Qed.

Lemma trace_bounded (calls : list Call) (c : SandboxController D Blob) :
  bounded c → Forall bounded (trace meth c calls).
Proof.
  revert c. induction calls as [|k ks IH]; intros c Hc; simpl; constructor.
  - by apply execute_command_bounded.
  - by apply IH, execute_command_bounded.
Qed.

(** C1. Whatever calls are made on a freshly constructed controller, with
    any commands, parameters and clock readings, after every one of them
    [len(command_history) <= MAX_HISTORY_ENTRIES] (1000) and
    [len(save_states) <= MAX_SAVE_STATES] (10). *)
Theorem history_and_snapshots_stay_bounded
    (sim : Simulation D) (now : datetime) (calls : list Call) :
  Forall (λ c : SandboxController D Blob,
            length (command_history c) ≤ 1000 ∧ size (save_states c) ≤ 10)
         (trace meth (init sim now) calls).
Proof. apply (trace_bounded calls), init_bounded. Qed.

(** [_trim_history] keeps the last 1000 entries, and all of them when
    there are no more than that. *)
Lemma trim_history_drop (c : SandboxController D Blob) :
  command_history (snd (_trim_history c)) =
  drop (length (command_history c) - 1000) (command_history c).
Proof.
  unfold _trim_history, modify. cbn [snd].
  case_decide as Hlen; cbn [command_history with_command_history].
  - reflexivity.
  - replace (length (command_history c) - 1000) with 0; [done|].
    unfold MAX_HISTORY_ENTRIES in Hlen. lia.
Qed.

Lemma last_drop_snoc {A} (l : list A) (x : A) (n : nat) :
  n ≤ length l → last (drop n (l ++ [x])) = Some x.
Proof.
  intros Hn. rewrite drop_app_le by done. apply last_snoc.
Qed.

(** C2, as amended. A call of [execute_command] whose handler returns a
    result, a success or a failure, appends exactly one entry
    [{timestamp, command, params, result}] to [command_history] (which is
    then cut to its last 1000 entries) and returns that result; a call
    whose handler raises appends nothing. *)
Theorem handler_result_is_logged cmd params clk (c : SandboxController D Blob) :
  is_processing c = false →
  let c' := snd (execute_command meth cmd params clk c) in
  match fst (dispatch meth cmd params clk (with_is_processing true c)) with
  | inr res =>
      let entry := mkEntry (now_log clk) (value cmd) params res in
      fst (execute_command meth cmd params clk c) = inr res ∧
      command_history c' =
        drop (length (command_history c ++ [entry]) - 1000) (command_history c ++ [entry]) ∧
      last (command_history c') = Some entry
  | inl e => command_history c' = command_history c
  end.
Proof.
  intros Hp c'. subst c'. rewrite execute_command_unfold by done.
  destruct (dispatch _ _ _ _ _) as [[e|res] c1] eqn:Hd;
    apply dispatch_frame in Hd as (Hh1 & _ & _ & _); cbn [fst snd].
  - cbn [command_history with_is_processing with_error_count]. done.
  - cbn [command_history with_is_processing]. rewrite trim_history_drop.
    cbn [command_history with_command_history]. rewrite Hh1.
    split_and!; [done..|].
    apply last_drop_snoc. rewrite length_app. simpl. lia.
Qed.

(** C9, as amended. [execute_command] always returns a result dictionary.
    An exception that leaves the handler is caught there: the error
    counter goes up by one and [{'success': False, 'command': ..,
    'reason': str(e)}] is returned; when the handler returns, its result
    is returned and the counter is unchanged. An exception raised by
    [get_state()] during Save never leaves the handler: [_save_state]
    catches it and returns [{'success': False, 'reason': str(e)}], and the
    counter is unchanged. *)
Theorem execute_command_returns_a_result cmd params clk (c : SandboxController D Blob) :
  ∃ r, fst (execute_command meth cmd params clk c) = inr r ∧
    (is_processing c = false →
     let c' := snd (execute_command meth cmd params clk c) in
     match fst (dispatch meth cmd params clk (with_is_processing true c)) with
     | inl e => r = CommandFail (value cmd) (Some (str_exc e)) ∧
                success r = false ∧
                error_count c' = S (error_count c)
     | inr res => r = res ∧ error_count c' = error_count c
     end ∧
     (cmd = SAVE →
      ∀ e, fst (get_state meth (simulation c)) = inl e →
           r = Fail (str_exc e) ∧ error_count c' = error_count c)).
Proof.
  destruct (is_processing c) eqn:Hp.
  - rewrite execute_command_busy by done. eexists; split; [done|]. done.
  - rewrite execute_command_unfold by done.
    destruct (dispatch _ _ _ _ _) as [[e|res] c1] eqn:Hd; cbn [fst snd];
      (eexists; split; [reflexivity|]); intros _;
      pose proof Hd as (_ & He1 & _ & _)%dispatch_frame.
    + split; [by cbn [error_count with_is_processing with_error_count]; rewrite He1|].
      intros -> e' Hg. exfalso.
      simpl in Hd. unfold _save_state in Hd. unmonad.
      destruct (get_state meth (simulation c)) as [[e0|b] sim']; simplify_eq/=.
    + cbn [error_count with_is_processing].
      destruct (trim_history_frame
          (with_command_history
             (command_history c1 ++ [mkEntry (now_log clk) (value cmd) params res]) c1))
          as (_ & -> & _).
      cbn [error_count with_command_history]. split; [done|].
      intros -> e' Hg.
      simpl in Hd. unfold _save_state in Hd. unmonad.
      destruct (get_state meth (simulation c)) as [[e0|b] sim']; simplify_eq/=.
      done.
Qed.

(** The result of a call and the simulation it leaves, read off the
    handler. *)
Lemma execute_command_via_dispatch cmd params clk (c : SandboxController D Blob) :
  is_processing c = false →
  fst (execute_command meth cmd params clk c) =
    inr (match fst (dispatch meth cmd params clk (with_is_processing true c)) with
         | inr res => res
         | inl e => CommandFail (value cmd) (Some (str_exc e))
         end) ∧
  simulation (snd (execute_command meth cmd params clk c)) =
    simulation (snd (dispatch meth cmd params clk (with_is_processing true c))) ∧
  is_processing (snd (execute_command meth cmd params clk c)) = false.
Proof.
  intros Hp. rewrite execute_command_unfold by done.
  destruct (dispatch _ _ _ _ _) as [[e|res] c1]; cbn [fst snd]; [done|].
  cbn [simulation is_processing with_is_processing].
  destruct (trim_history_frame
      (with_command_history
         (command_history c1 ++ [mkEntry (now_log clk) (value cmd) params res]) c1))
      as (_ & _ & ->).
  done.
Qed.

(** Save, then Load of the returned id, while the store has room: the
    Load hands [set_state] the blob that [get_state] returned, and when
    [set_state] accepts it the Load succeeds. *)
Lemma save_then_load_passes_the_saved_blob clk clk2 blob sim1
    (c : SandboxController D Blob) :
  is_processing c = false →
  size (save_states c) < MAX_SAVE_STATES →
  now_save_id clk ≠ "" →
  get_state meth (simulation c) = (inr blob, sim1) →
  let saved := execute_command meth SAVE None clk c in
  let loaded := execute_command meth LOAD (Some {[ "save_id" := now_save_id clk ]})
                  clk2 (snd saved) in
  fst saved = inr (SnapshotOk (now_save_id clk) (now_result clk)) ∧
  simulation (snd saved) = sim1 ∧
  save_states (snd saved) !! now_save_id clk = Some blob ∧
  match set_state meth blob sim1 with
  | (inr _, sim2) =>
      fst loaded = inr (SnapshotOk (now_save_id clk) (now_result clk2)) ∧
      simulation (snd loaded) = sim2
  | (inl e, sim2) =>
      fst loaded = inr (Fail (str_exc e)) ∧ simulation (snd loaded) = sim2
  end.
Proof.
  intros Hp Hroom Hid Hget saved loaded.
  assert (Hsave : dispatch meth SAVE None clk (with_is_processing true c) =
            (inr (SnapshotOk (now_save_id clk) (now_result clk)),
             with_save_states (<[now_save_id clk := blob]> (save_states c))
               (with_simulation sim1 (with_is_processing true c)))).
  { cbn [dispatch]. unfold _save_state, _trim_save_states. unmonad. rewrite Hget. simpl.
    destruct (decide _) as [Hgt|_]; [|done].
    rewrite map_size_insert in Hgt. unfold MAX_SAVE_STATES in *.
    destruct (save_states c !! now_save_id clk); simpl in Hgt; lia. }
  assert (Hsaved : snd saved =
            with_is_processing false
              (snd (_trim_history
                 (with_command_history
                    (command_history c ++
                       [mkEntry (now_log clk) "save" None
                          (SnapshotOk (now_save_id clk) (now_result clk))])
                    (with_save_states (<[now_save_id clk := blob]> (save_states c))
                       (with_simulation sim1 (with_is_processing true c))))))
          ∧ fst saved = inr (SnapshotOk (now_save_id clk) (now_result clk))).
  { subst saved. rewrite execute_command_unfold by done. by rewrite Hsave. }
  destruct Hsaved as [Hsnd Hfst].
  destruct (trim_history_frame
      (with_command_history
         (command_history c ++
            [mkEntry (now_log clk) "save" None
               (SnapshotOk (now_save_id clk) (now_result clk))])
         (with_save_states (<[now_save_id clk := blob]> (save_states c))
            (with_simulation sim1 (with_is_processing true c)))))
    as (Hst & _ & Hsim).
  assert (Hstore : save_states (snd saved) !! now_save_id clk = Some blob).
  { rewrite Hsnd. cbn [save_states with_is_processing]. rewrite Hst.
    cbn [save_states with_save_states]. apply lookup_insert_eq. }
  assert (Hsim1 : simulation (snd saved) = sim1).
  { rewrite Hsnd. cbn [simulation with_is_processing]. by rewrite Hsim. }
  split_and!; [done..|].
  assert (Hp' : is_processing (snd saved) = false) by by rewrite Hsnd.
  subst loaded. clear Hsnd Hfst. clearbody saved.
  destruct (execute_command_via_dispatch LOAD (Some {[ "save_id" := now_save_id clk ]})
              clk2 (snd saved) Hp') as (-> & -> & _).
  cbn [dispatch]. unfold _load_state. unmonad.
  rewrite lookup_singleton_eq. unfold str_truthy.
  rewrite bool_decide_eq_false_2 by done. simpl.
  rewrite Hstore. simpl. rewrite Hsim1.
  by destruct (set_state meth blob sim1) as [[e|[]] sim2].
Qed.

Lemma start_simulation_not_initializing params clk (c : SandboxController D Blob) :
  state (simulation c) ≠ INITIALIZING →
  _start_simulation meth params clk c = (inr (Fail "Simulation already started"), c).
Proof.
  intros Hne. unfold _start_simulation. unmonad. by destruct (decide _).
Qed.

Lemma start_simulation_no_params params clk (c : SandboxController D Blob) :
  state (simulation c) = INITIALIZING → params_truthy params = false →
  _start_simulation meth params clk c =
    (inr (StartOk (simulation_id (simulation c)) (now_start clk)),
     with_last_update (now_start clk)
       (with_simulation (set_state_attr RUNNING (simulation c)) c)).
Proof.
  intros Heq Hfalsy. unfold _start_simulation. unmonad.
  destruct (decide _) as [Hne|_]; [done|].
  destruct params as [d|]; [rewrite Hfalsy|]; done.
Qed.

Lemma start_simulation_params d clk (c : SandboxController D Blob) :
  state (simulation c) = INITIALIZING → params_truthy (Some d) = true →
  _start_simulation meth (Some d) clk c =
    match _apply_simulation_params meth d (simulation c) with
    | (inr _, sim') =>
        (inr (StartOk (simulation_id sim') (now_start clk)),
         with_last_update (now_start clk)
           (with_simulation (set_state_attr RUNNING sim') (with_simulation sim' c)))
    | (inl e, sim') =>
        (inl e, with_simulation (set_state_attr ERROR sim') (with_simulation sim' c))
    end.
Proof.
  intros Heq Htruthy. unfold _start_simulation. unmonad.
  destruct (decide _) as [Hne|_]; [done|]. rewrite Htruthy.
  by destruct (_apply_simulation_params meth d (simulation c)) as [[e|[]] sim'].
Qed.

(** C5, as amended. Start succeeds only from Initializing. In any other
    state it fails with reason "Simulation already started" and leaves the
    simulation as it was. From Initializing, with no or empty params it
    succeeds, returns the simulation id and the start time, and the state
    becomes Running; with params it does so when applying them returns,
    and when applying them raises the state becomes Error and a failure
    carrying [str(e)] is returned. So two Starts in succession without
    params: the first succeeds, the second fails with "Simulation already
    started". *)
Theorem start_only_from_initializing params clk clk2 (c : SandboxController D Blob) :
  is_processing c = false →
  let r := fst (execute_command meth START params clk c) in
  let c' := snd (execute_command meth START params clk c) in
  (state (simulation c) ≠ INITIALIZING →
     r = inr (Fail "Simulation already started") ∧ simulation c' = simulation c) ∧
  (state (simulation c) = INITIALIZING → params_truthy params = false →
     r = inr (StartOk (simulation_id (simulation c)) (now_start clk)) ∧
     simulation c' = set_state_attr RUNNING (simulation c) ∧
     fst (execute_command meth START params clk2 c') = inr (Fail "Simulation already started")) ∧
  (state (simulation c) = INITIALIZING →
     ∀ d, params = Some d → params_truthy params = true →
     match _apply_simulation_params meth d (simulation c) with
     | (inr _, sim') =>
         r = inr (StartOk (simulation_id sim') (now_start clk)) ∧
         simulation c' = set_state_attr RUNNING sim'
     | (inl e, sim') =>
         r = inr (CommandFail "start" (Some (str_exc e))) ∧
         simulation c' = set_state_attr ERROR sim'
     end) ∧
  (∀ res, r = inr res → success res = true → state (simulation c) = INITIALIZING).
Proof.
  intros Hp r c'. subst r c'.
  destruct (execute_command_via_dispatch START params clk c Hp) as (Hr & Hsim & Hp').
  rewrite Hr, Hsim. cbn [dispatch].
  split_and!.
  - intros Hne. by rewrite start_simulation_not_initializing.
  - intros Heq Hfalsy. rewrite start_simulation_no_params by done.
    cbn [fst snd simulation with_last_update with_simulation with_is_processing].
    split_and!; [done..|].
    destruct (execute_command_via_dispatch START params clk2 _ Hp') as (-> & _ & _).
    cbn [dispatch]. rewrite start_simulation_not_initializing; [done|].
    cbn [simulation with_is_processing]. rewrite Hsim. cbn [dispatch].
    by rewrite start_simulation_no_params.
  - intros Heq d -> Htruthy. rewrite start_simulation_params by done.
    cbn [simulation with_is_processing].
    by destruct (_apply_simulation_params meth d (simulation c)) as [[e|[]] sim'].
  - intros res [= <-] Hs.
    destruct (decide (state (simulation c) = INITIALIZING)) as [|Hne]; [done|].
    by rewrite start_simulation_not_initializing in Hs.
Qed.

End ControllerFacts.

(** ** The tick scheduler *)

Section SimulationFacts.

Import Simulation.

Context {time World Upd Event Metric : Type}.
Context (time_add time_mul : time → time → time).
Context (sub : Subsystems time World Upd Event Metric).

Local Abbreviation update := (update time_add time_mul sub).
Local Abbreviation updates := (updates time_add time_mul sub).

Lemma update_not_running dt (s : SandboxSimulation time World) :
  state s ≠ RUNNING →
  update dt s = (Failure ("Simulation not running: " +:+ str_state (state s)), s, []).
Proof. intros Hs. unfold Simulation.update. by destruct (decide _). Qed.

Local Ltac phase_raised n :=
  exists (take n tick_order), (tick_order !!! n), (drop (S n) tick_order);
  split; reflexivity.

(** One tick: either every phase returned, in the order of the program,
    or exactly one phase raised, the phases before it returned and the
    phases after it were not called. *)
Lemma tick_outcome sd t0 (w : World) :
  match tick sub sd t0 (w, []) with
  | (inr _, (_, log)) => log = returned tick_order
  | (inl e, (_, log)) =>
      ∃ before p after,
        tick_order = before ++ p :: after ∧ log = returned before ++ [(p, Some e)]
  end.
Proof.
  unfold tick, bind, ret, invoke.
  destruct (_pre_update sub sd w) as [[e|[]] w1]; [phase_raised 0|].
  destruct (environment_update sub sd w1) as [[e|u1] w2]; [phase_raised 1|].
  destruct (physics_update sub sd w2) as [[e|u2] w3]; [phase_raised 2|].
  destruct (_update_agents sub sd w3) as [[e|u3] w4]; [phase_raised 3|].
  destruct (_resolve_combat sub sd w4) as [[e|u4] w5]; [phase_raised 4|].
  destruct (_update_social sub sd w5) as [[e|u5] w6]; [phase_raised 5|].
  destruct (_update_factions sub sd w6) as [[e|u6] w7]; [phase_raised 6|].
  destruct (_post_update sub sd w7) as [[e|[]] w8]; [phase_raised 7|].
  destruct (_collect_events sub u1 u2 u3 u4 u5 u6 w8) as [[e|ev] w9]; [phase_raised 8|].
  destruct (_update_metrics sub ∅ w9) as [[e|m] w10]; [phase_raised 9|].
  reflexivity.
Qed.

Lemma update_running dt (s : SandboxSimulation time World) :
  state s = RUNNING →
  match update dt s with
  | (Success _, s', log) =>
      state s' = RUNNING ∧ time_scale s' = time_scale s ∧
      current_time s' = time_add (current_time s) (time_mul dt (time_scale s)) ∧
      log = returned tick_order
  | (Failure msg, s', log) =>
      state s' = ERROR ∧ time_scale s' = time_scale s ∧
      current_time s' = current_time s ∧
      ∃ before p e after,
        msg = str_exc e ∧ tick_order = before ++ p :: after ∧
        log = returned before ++ [(p, Some e)]
  end.
Proof.
  intros Hs. unfold Simulation.update.
  destruct (decide _) as [Hne|_]; [done|].
  pose proof (tick_outcome (time_mul dt (time_scale s)) (current_time s) (world s)) as Ht.
  destruct (tick _ _ _ _) as [[e|u] [w log]]; simpl.
  - destruct Ht as (before & p & after & Ho & Hl). split_and!; try done.
    by exists before, p, e, after.
  - by rewrite Hs.
Qed.

Lemma returned_no_exception (ps : list Phase) p e : (p, Some e) ∉ returned ps.
Proof.
  unfold returned. intros (q & [= _ ?] & _)%list_elem_of_fmap.
Qed.

Lemma updates_in_error deltas (s : SandboxSimulation time World) :
  state s = ERROR →
  updates deltas s =
    (replicate (length deltas) (Failure "Simulation not running: SimulationState.ERROR"), s).
Proof.
  intros Hs. induction deltas as [|d ds IH]; simpl; [done|].
  rewrite update_not_running by (by rewrite Hs). rewrite IH, Hs. done.
Qed.

Local Ltac unfold_calls :=
  unfold raises_at, events_collected, post_update_returned, factions_returned,
    social_returned, combat_returned, agents_returned, physics_returned,
    environment_returned, pre_update_returned in *.

(** A call that raises ends the tick: the exception, the world that call
    left, and a call log that stops at that call. *)
Lemma tick_raises sd t0 (w : World) p e w' :
  raises_at sub sd w p e w' →
  tick sub sd t0 (w, []) = (inl e, (w', returned (calls_before p) ++ [(p, Some e)])).
Proof.
  intros H. unfold tick, bind, ret, invoke.
  destruct p; unfold_calls;
    repeat match goal with
           | Hex : ∃ _, _ |- _ => destruct Hex
           | Hand : _ ∧ _ |- _ => destruct Hand
           end;
    repeat match goal with
           | Heq : _ = (_, _) |- _ => rewrite Heq; clear Heq; cbn beta iota
           end;
    reflexivity.
Qed.

(** A tick ends with an exception only if one of its calls raised it. *)
Lemma tick_raised_by_a_call sd t0 (w : World) e w' log :
  tick sub sd t0 (w, []) = (inl e, (w', log)) → ∃ p, raises_at sub sd w p e w'.
Proof.
  unfold tick, bind, ret, invoke.
  destruct (_pre_update sub sd w) as [[e0|[]] w1] eqn:H1;
    [intros [= <- <- <-]; by exists PreUpdate|].
  destruct (environment_update sub sd w1) as [[e0|u1] w2] eqn:H2;
    [intros [= <- <- <-]; exists EnvironmentUpdate; unfold_calls; eauto 20|].
  destruct (physics_update sub sd w2) as [[e0|u2] w3] eqn:H3;
    [intros [= <- <- <-]; exists PhysicsUpdate; unfold_calls; eauto 20|].
  destruct (_update_agents sub sd w3) as [[e0|u3] w4] eqn:H4;
    [intros [= <- <- <-]; exists UpdateAgents; unfold_calls; eauto 20|].
  destruct (_resolve_combat sub sd w4) as [[e0|u4] w5] eqn:H5;
    [intros [= <- <- <-]; exists ResolveCombat; unfold_calls; eauto 20|].
  destruct (_update_social sub sd w5) as [[e0|u5] w6] eqn:H6;
    [intros [= <- <- <-]; exists UpdateSocial; unfold_calls; eauto 20|].
  destruct (_update_factions sub sd w6) as [[e0|u6] w7] eqn:H7;
    [intros [= <- <- <-]; exists UpdateFactions; unfold_calls; eauto 30|].
  destruct (_post_update sub sd w7) as [[e0|[]] w8] eqn:H8;
    [intros [= <- <- <-]; exists PostUpdate; unfold_calls; eauto 30|].
  destruct (_collect_events sub u1 u2 u3 u4 u5 u6 w8) as [[e0|ev] w9] eqn:H9;
    [intros [= <- <- <-]; exists CollectEvents; unfold_calls; eauto 40|].
  destruct (_update_metrics sub ∅ w9) as [[e0|m] w10] eqn:H10;
    [intros [= <- <- <-]; exists UpdateMetrics; unfold_calls; eauto 40|].
  discriminate.
Qed.

(** C3. [update] returns a "not running" failure whenever the state is not
    Running. In a tick of a running simulation, if a subsystem call raises
    an exception [e] (whichever of the ten calls it is, the calls before it
    having returned), then [update] returns the failure with the reason
    [str(e)], the state is Error, the world is the one the raising call
    left and the call log stops at that call, so the calls that follow it
    in the tick are not made; and every later [update] returns the "not
    running" failure and leaves the object as it is, in the state Error.
    A running simulation fails in no other way: a failure it returns
    carries the exception one of the calls raised. *)
Theorem update_fails_unless_running_and_halts_on_failure
    dt (s : SandboxSimulation time World) :
  (state s ≠ RUNNING →
     update dt s = (Failure ("Simulation not running: " +:+ str_state (state s)), s, [])) ∧
  (state s = RUNNING →
     ∀ p e w', raises_at sub (time_mul dt (time_scale s)) (world s) p e w' →
       let s' := mkSim ERROR (current_time s) (time_scale s) w' in
       update dt s = (Failure (str_exc e), s', returned (calls_before p) ++ [(p, Some e)]) ∧
       tick_order = calls_before p ++ p :: drop (S (length (calls_before p))) tick_order ∧
       ∀ deltas,
         updates deltas s' =
           (replicate (length deltas)
              (Failure "Simulation not running: SimulationState.ERROR"), s')) ∧
  (state s = RUNNING →
     ∀ reason s' log, update dt s = (Failure reason, s', log) →
       ∃ p e, raises_at sub (time_mul dt (time_scale s)) (world s) p e (world s') ∧
              reason = str_exc e).
Proof.
  split_and!; [apply update_not_running| |].
  - intros Hs p e w' Hraise. cbv zeta. split_and!.
    + unfold Simulation.update. destruct (decide _) as [Hne|_]; [done|].
      by rewrite (tick_raises _ _ _ _ _ _ Hraise).
    + by destruct p.
    + intros deltas. by apply updates_in_error.
  - intros Hs reason s' log. unfold Simulation.update.
    destruct (decide _) as [Hne|_]; [done|].
    destruct (tick _ _ _ _) as [[e|u] [w log']] eqn:Ht; [|discriminate].
    intros [= <- <- <-]. apply tick_raised_by_a_call in Ht as [p Hp].
    by exists p, e.
Qed.

(** C10. When [update] returns a failure, for the state not being Running
    or for a subsystem raising in the tick, [current_time] is what it was
    before the call; a successful tick advances it by the scaled delta. *)
Theorem failed_update_keeps_the_clock dt (s : SandboxSimulation time World) :
  let r := fst (fst (update dt s)) in
  let s' := snd (fst (update dt s)) in
  (success r = false → current_time s' = current_time s) ∧
  (success r = true →
     state s = RUNNING ∧
     current_time s' = time_add (current_time s) (time_mul dt (time_scale s))).
Proof.
  destruct (decide (state s = RUNNING)) as [Hs|Hs].
  - pose proof (update_running dt s Hs) as Hu.
    destruct (update dt s) as [[[msg|u] s'] log]; simpl in *.
    + by destruct Hu as (_ & _ & -> & _).
    + by destruct Hu as (_ & _ & -> & _).
  - rewrite update_not_running by done. simpl. done.
Qed.

End SimulationFacts.

(** ** The connection registry *)

Section AgentInterfaceFacts.

Import AgentInterface.

Lemma unlock_locked (s : AgentInterface) :
  lock s = false → with_lock_flag false (with_lock_flag true s) = s.
Proof. destruct s; simpl. by intros ->. Qed.









(** [_disconnect_agent], called with the lock free, does disconnect. *)
Lemma disconnect_agent_spec a (s : AgentInterface) :
  lock s = false →
  ∃ s', _disconnect_agent a s = Done tt s' ∧
        active_connections s' !! a = None ∧
        connection_timestamps s' !! a = None ∧
        (is_Some (agent_states s !! a) → agent_states s' !! a = Some DISCONNECTED) ∧
        lock s' = false.
Proof.
  intros Hl. unfold _disconnect_agent, with_lock. rewrite Hl. simpl.
  eexists. split; [reflexivity|].
  destruct (decide _) as [Hs|Hs]; simpl; rewrite !lookup_delete_eq; split_and!; try done.
  intros _. by rewrite lookup_insert_eq.
Qed.

(** The loop of [_cleanup_inactive_connections] runs with the lock held:
    it passes over the connections that are not timed out and waits for
    ever at the first one that is. *)
Lemma cleanup_loop now (xs : list (string * datetime)) (s : AgentInterface) :
  lock s = true →
  for_each xs
    (λ '(agent_id, timestamp),
       if decide (CONNECTION_TIMEOUT s < timedelta_seconds now timestamp)%Z
       then _disconnect_agent agent_id
       else op_ret tt) s =
  if decide (Exists (λ x, CONNECTION_TIMEOUT s < timedelta_seconds now x.2)%Z xs)
  then Blocked s else Done tt s.
Proof.
  intros Hl. induction xs as [|[a ts] xs IH].
  - cbn [for_each]. case_decide as H; [by apply Exists_nil in H|done].
  - cbn [for_each]. unfold op_bind.
    destruct (decide (CONNECTION_TIMEOUT s < timedelta_seconds now ts)%Z) as [Hst|Hst].
    + unfold _disconnect_agent, with_lock. rewrite Hl.
      destruct (decide (Exists _ (_ :: xs))) as [_|Hn]; [done|]. destruct Hn. by left.
    + unfold op_ret at 1. rewrite IH.
      destruct (decide (Exists _ xs)) as [Hex|Hex];
        destruct (decide (Exists _ (_ :: xs))) as [Hex'|Hex']; try done.
      * destruct Hex'. by right.
      * apply Exists_cons in Hex' as [?|?]; done.
Qed.

Lemma cleanup_inactive_connections_outcome now (s : AgentInterface) :
  lock s = false →
  _cleanup_inactive_connections now s =
    if decide (Exists (λ x, CONNECTION_TIMEOUT s < timedelta_seconds now x.2)%Z
                 (map_to_list (connection_timestamps s)))
    then Blocked (with_lock_flag true s) else Done tt s.
Proof.
  intros Hl. unfold _cleanup_inactive_connections, with_lock. rewrite Hl.
  pose proof (cleanup_loop now (map_to_list (connection_timestamps s))
                (with_lock_flag true s) eq_refl) as Hloop.
  simpl in Hloop. simpl. rewrite Hloop.
  destruct (decide _); [done|]. by rewrite unlock_locked.
Qed.

(** So a pass never disconnects anyone: with a timed-out connection it
    blocks with the lock held and every table as it was. *)
Lemma cleanup_blocks_on_timed_out_connection now a ts (s : AgentInterface) :
  lock s = false →
  connection_timestamps s !! a = Some ts →
  (CONNECTION_TIMEOUT s < timedelta_seconds now ts)%Z →
  janitor_pass now s = Blocked (with_lock_flag true s).
Proof.
  intros Hl Hts Hst. unfold janitor_pass, op_bind.
  rewrite cleanup_inactive_connections_outcome by done.
  destruct (decide _) as [_|Hn]; [done|]. destruct Hn.
  apply Exists_exists. exists (a, ts). split; [|done].
  by apply elem_of_map_to_list.
Qed.

(** The second step of a pass, when it is reached, removes exactly the
    handler tables of agents that are not registered. *)
Lemma cleanup_old_events_loop (keys : list string) (s : AgentInterface) :
  ∃ s',
    for_each keys
      (λ agent_id s0,
         if decide (is_Some (registered_agents s0 !! agent_id))
         then Done tt s0
         else Done tt (with_event_handlers (delete agent_id (event_handlers s0)) s0)) s
    = Done tt s' ∧
    registered_agents s' = registered_agents s ∧
    lock s' = lock s ∧
    agent_states s' = agent_states s ∧
    active_connections s' = active_connections s ∧
    connection_timestamps s' = connection_timestamps s ∧
    ∀ a, event_handlers s' !! a =
         if decide (a ∈ keys ∧ registered_agents s !! a = None)
         then None else event_handlers s !! a.
Proof.
  revert s. induction keys as [|k keys IH]; intros s; cbn [for_each].
  - exists s. split_and!; try done.
    all: intros a; destruct (decide _) as [[Hin _]|_]; [by apply elem_of_nil in Hin|done].
  - unfold op_bind.
    destruct (decide (is_Some (registered_agents s !! k))) as [Hreg|Hreg].
    + destruct (IH s) as (s' & -> & Hr & Hl & Hst & Hac & Hts & Hev).
      exists s'. split_and!; try done. intros a. rewrite Hev.
      destruct (decide (a ∈ keys ∧ _)) as [[Hin Hn]|Hn1];
        destruct (decide (a ∈ k :: keys ∧ _)) as [[Hin' Hn']|Hn2]; try done.
      * destruct Hn2. split; [by right|done].
      * apply elem_of_cons in Hin' as [->|Hin'].
        -- rewrite Hn' in Hreg. by destruct Hreg.
        -- by destruct Hn1.
    + set (s1 := with_event_handlers _ s).
      destruct (IH s1) as (s' & -> & Hr & Hl & Hst & Hac & Hts & Hev).
      exists s'. split_and!; try done. intros a. rewrite Hev. unfold s1; simpl.
      apply eq_None_not_Some in Hreg.
      destruct (decide (a ∈ keys ∧ _)) as [[Hin Hn]|Hn1];
        destruct (decide (a ∈ k :: keys ∧ _)) as [[Hin' Hn']|Hn2]; try done.
      * destruct Hn2. split; [by right|done].
      * apply elem_of_cons in Hin' as [->|Hin'].
        -- by rewrite lookup_delete_eq.
        -- by destruct Hn1.
      * destruct (decide (a = k)) as [->|Hne].
        -- destruct Hn2. split; [by left|done].
        -- by rewrite lookup_delete_ne.
Qed.

Lemma cleanup_old_events_spec (s : AgentInterface) :
  lock s = false →
  ∃ s', _cleanup_old_events s = Done tt s' ∧
        lock s' = false ∧
        registered_agents s' = registered_agents s ∧
        agent_states s' = agent_states s ∧
        active_connections s' = active_connections s ∧
        connection_timestamps s' = connection_timestamps s ∧
        ∀ a, event_handlers s' !! a =
             if decide (is_Some (registered_agents s !! a))
             then event_handlers s !! a else None.
Proof.
  intros Hl. unfold _cleanup_old_events, with_lock. rewrite Hl.
  destruct (cleanup_old_events_loop (map_to_list (event_handlers s)).*1
              (with_lock_flag true s)) as (s' & Hrun & Hr & Hl' & Hst & Hac & Hts & Hev).
  simpl in *. rewrite Hrun. eexists. split; [reflexivity|]. simpl.
  split_and!; try done. intros a. rewrite Hev.
  destruct (decide (a ∈ _ ∧ _)) as [[Hin Hn]|Hn];
    destruct (decide (is_Some _)) as [Hs|Hs]; try done.
  - rewrite Hn in Hs. by destruct Hs.
  - apply eq_None_not_Some in Hs.
    destruct (event_handlers s !! a) as [tbl|] eqn:Htbl; [|done].
    destruct Hn. split; [|done].
    apply list_elem_of_fmap. exists (a, tbl). split; [done|].
    by apply elem_of_map_to_list.
Qed.

End AgentInterfaceFacts.

(** ** Runs of the control plane *)

Section ControllerRuns.

Import Controller.

Local Abbreviation mock := MockSimulation_methods.

(** A Start without params on a fresh controller is logged. *)
Lemma handler_result_is_logged_witness :
  is_processing fresh_mock = false ∧
  command_history (snd (execute_command mock START None (at_time 5 "0.000005") fresh_mock)) =
    [mkEntry 5 "start" None (StartOk "test_sim_001" 5)].
Proof.
  split; [reflexivity|].
  pose proof (handler_result_is_logged mock START None (at_time 5 "0.000005")
                fresh_mock eq_refl) as H.
  vm_compute in H. destruct H as (_ & H & _). exact H.
Defined.

(** C2 does not hold as stated: [execute_command(ControlCommand.LOAD)],
    with [params] left at its default [None], raises inside [_load_state];
    the call returns a failure result and [command_history] is still
    empty. *)
Lemma load_without_params_is_not_logged :
  let out := execute_command mock LOAD None (at_time 5 "0.000005") fresh_mock in
  fst out = inr (CommandFail "load" (Some "'NoneType' object has no attribute 'get'")) ∧
  command_history fresh_mock = [] ∧
  command_history (snd out) = [] ∧
  error_count (snd out) = 1.
Proof. vm_compute. done. Qed.

(** Two Starts without params on a fresh controller. *)
Lemma start_only_from_initializing_witness :
  is_processing fresh_mock = false ∧
  state (simulation fresh_mock) = INITIALIZING ∧
  params_truthy (Some ∅) = false ∧
  let first := execute_command mock START (Some ∅) (at_time 5 "0.000005") fresh_mock in
  fst first = inr (StartOk "test_sim_001" 5) ∧
  state (simulation (snd first)) = RUNNING ∧
  fst (execute_command mock START (Some ∅) (at_time 9 "0.000009") (snd first)) =
    inr (Fail "Simulation already started").
Proof.
  split_and!; [reflexivity..|].
  pose proof (start_only_from_initializing mock (Some ∅) (at_time 5 "0.000005")
                (at_time 9 "0.000009") fresh_mock eq_refl) as (_ & H & _ & _).
  destruct (H eq_refl eq_refl) as (H1 & H2 & H3).
  cbv zeta. rewrite H1, H2, H3. done.
Defined.

(** C5 does not hold as stated: a Start with params on a simulation in
    state Initializing fails, and the state becomes Error. *)
Lemma start_with_params_fails_from_initializing :
  let out := execute_command mock START (Some {[ "time_scale" := "2.0" ]})
               (at_time 5 "0.000005") fresh_mock in
  state (simulation fresh_mock) = INITIALIZING ∧
  fst out = inr (CommandFail "start"
    (Some "'SandboxController' object has no attribute '_apply_simulation_params'")) ∧
  state (simulation (snd out)) = ERROR.
Proof. vm_compute. done. Qed.

(** A command whose handler raises: the counter goes up. *)
Lemma execute_command_returns_a_result_witness :
  is_processing fresh_mock = false ∧
  ∃ r, fst (execute_command mock PAUSE None (at_time 5 "0.000005") fresh_mock) = inr r ∧
       success r = false ∧
       error_count (snd (execute_command mock PAUSE None (at_time 5 "0.000005") fresh_mock)) = 1.
Proof.
  split; [reflexivity|].
  destruct (execute_command_returns_a_result mock PAUSE None (at_time 5 "0.000005")
              fresh_mock) as (r & Hr & H).
  exists r. split; [exact Hr|].
  destruct (H eq_refl) as [H1 _]. simpl in H1. destruct H1 as (_ & Hs & He).
  split; [exact Hs|]. exact He.
Defined.

(** C9 does not hold as stated: on the repository's [SandboxSimulation],
    [get_state()] raises during Save; [_save_state] returns the failure
    and [error_count] stays 0. *)
Lemma get_state_failure_is_not_counted :
  let out := execute_command SandboxSimulation_methods SAVE None
               (at_time 5 "0.000005") fresh_sandbox in
  fst (get_state SandboxSimulation_methods (simulation fresh_sandbox)) =
    inl (AttributeError "SandboxSimulation" "get_state") ∧
  fst out = inr (Fail "'SandboxSimulation' object has no attribute 'get_state'") ∧
  error_count fresh_sandbox = 0 ∧
  error_count (snd out) = 0.
Proof. vm_compute. done. Qed.

(** C6 on the code. Ten snapshots are stored, with ids [999999990.5] to
    [999999999.5]; the eleventh Save, one second later, has the id
    [1000000000.5]. [min] compares the ids as strings, so the eviction
    removes the snapshot that was just captured and keeps the oldest one.
    The same happens when the eleventh id is older because the wall clock
    was set back. *)
Theorem eviction_removes_the_newest_snapshot :
  (let before := run mock fresh_mock saves_before_rollover in
   let out := execute_command mock SAVE None
                (at_time 1000000000500000 "1000000000.5") before in
   size (save_states before) = 10 ∧
   fst out = inr (SnapshotOk "1000000000.5" 1000000000500000) ∧
   py_min (map_to_list (<["1000000000.5" := {[ "test" := "state" ]}]> (save_states before))).*1
     = Some "1000000000.5" ∧
   save_states (snd out) !! "1000000000.5" = None ∧
   save_states (snd out) !! "999999990.5" = Some {[ "test" := "state" ]} ∧
   size (save_states (snd out)) = 10) ∧
  (let before := run mock fresh_mock saves_before_step_back in
   let out := execute_command mock SAVE None
                (at_time 1700000000500000 "1700000000.5") before in
   fst out = inr (SnapshotOk "1700000000.5" 1700000000500000) ∧
   save_states (snd out) !! "1700000000.5" = None ∧
   save_states (snd out) !! "1700000001.5" = Some {[ "test" := "state" ]}).
Proof. cbv zeta. split_and!; vm_compute; reflexivity. Qed.

(** C4 on the code. With ten snapshots stored, a Save whose id is the
    least of the eleven as a string reports success and returns that id,
    and the Load of the returned id that follows fails with "Save state
    not found". *)
Theorem load_of_returned_save_id_fails :
  let before := run mock fresh_mock saves_before_rollover in
  let saved := execute_command mock SAVE None
                 (at_time 1000000000500000 "1000000000.5") before in
  let loaded := execute_command mock LOAD (Some {[ "save_id" := "1000000000.5" ]})
                  (at_time 1000000000600000 "1000000000.6") (snd saved) in
  fst saved = inr (SnapshotOk "1000000000.5" 1000000000500000) ∧
  simulation (snd saved) = simulation before ∧
  fst loaded = inr (Fail "Save state not found").
Proof. vm_compute. done. Qed.

End ControllerRuns.

(** ** Runs of the tick scheduler *)

Section SimulationRuns.

Import Simulation.

(** An update of a paused simulation; a tick in which combat resolution,
    the fifth call, raises: the four calls before it returned, the five
    after it were not made, the state is Error and the next updates fail;
    and a tick whose first call, [_pre_update], is not defined. *)
Lemma update_fails_unless_running_and_halts_on_failure_witness :
  state paused ≠ RUNNING ∧
  update Z.add Z.mul failing_combat 16%Z paused =
    (Failure "Simulation not running: SimulationState.PAUSED", paused, []) ∧
  state running = RUNNING ∧
  raises_at failing_combat 16%Z [] ResolveCombat combat_failed
    ["pre"; "environment"; "physics"; "agents"; "combat"] ∧
  (let s' := mkSim ERROR 0%Z 1%Z ["pre"; "environment"; "physics"; "agents"; "combat"] in
   update Z.add Z.mul failing_combat 16%Z running =
     (Failure "combat failed", s',
      [(PreUpdate, None); (EnvironmentUpdate, None); (PhysicsUpdate, None);
       (UpdateAgents, None); (ResolveCombat, Some combat_failed)]) ∧
   updates Z.add Z.mul failing_combat [16; 16]%Z s' =
     ([Failure "Simulation not running: SimulationState.ERROR";
       Failure "Simulation not running: SimulationState.ERROR"], s')) ∧
  raises_at without_pre_update 16%Z [] PreUpdate
    (AttributeError "SandboxSimulation" "_pre_update") [] ∧
  (let s' := mkSim ERROR 0%Z 1%Z [] in
   update Z.add Z.mul without_pre_update 16%Z running =
     (Failure "'SandboxSimulation' object has no attribute '_pre_update'", s',
      [(PreUpdate, Some (AttributeError "SandboxSimulation" "_pre_update"))]) ∧
   updates Z.add Z.mul without_pre_update [16]%Z s' =
     ([Failure "Simulation not running: SimulationState.ERROR"], s')) ∧
  (∃ p e, raises_at failing_combat 16%Z [] p e
            ["pre"; "environment"; "physics"; "agents"; "combat"] ∧
          "combat failed" = str_exc e).
Proof.
  assert (Hcombat : raises_at failing_combat 16%Z [] ResolveCombat combat_failed
                      ["pre"; "environment"; "physics"; "agents"; "combat"]).
  { exists tt, tt, tt, ["pre"; "environment"; "physics"; "agents"]. split; [|reflexivity].
    exists ["pre"; "environment"; "physics"]. split; [|reflexivity].
    exists ["pre"; "environment"]. split; [|reflexivity].
    exists ["pre"]. split; reflexivity. }
  assert (Hpre : raises_at without_pre_update 16%Z [] PreUpdate
                   (AttributeError "SandboxSimulation" "_pre_update") [])
    by reflexivity.
  pose proof (update_fails_unless_running_and_halts_on_failure
                Z.add Z.mul failing_combat 16%Z paused) as (Hp & _ & _).
  pose proof (update_fails_unless_running_and_halts_on_failure
                Z.add Z.mul failing_combat 16%Z running) as (_ & Hr & Honly).
  pose proof (update_fails_unless_running_and_halts_on_failure
                Z.add Z.mul without_pre_update 16%Z running) as (_ & Hr' & _).
  destruct (Hr eq_refl _ _ _ Hcombat) as (Hres & _ & Hlater).
  destruct (Hr' eq_refl _ _ _ Hpre) as (Hres' & _ & Hlater').
  split; [discriminate|]. split; [exact (Hp ltac:(discriminate))|].
  split; [reflexivity|]. split; [exact Hcombat|].
  split; [split; [exact Hres | exact (Hlater [16; 16]%Z)]|].
  split; [exact Hpre|].
  split; [split; [exact Hres' | exact (Hlater' [16]%Z)]|].
  exact (Honly eq_refl _ _ _ Hres).
Defined.

(** The clock after a failed tick and after a successful one. *)
Lemma failed_update_keeps_the_clock_witness :
  success (fst (fst (update Z.add Z.mul failing_combat 16%Z running))) = false ∧
  current_time (snd (fst (update Z.add Z.mul failing_combat 16%Z running))) = 0%Z ∧
  success (fst (fst (update Z.add Z.mul all_fine 16%Z running))) = true ∧
  current_time (snd (fst (update Z.add Z.mul all_fine 16%Z running))) = 16%Z.
Proof.
  pose proof (failed_update_keeps_the_clock Z.add Z.mul failing_combat 16%Z running)
    as [Hfail _].
  pose proof (failed_update_keeps_the_clock Z.add Z.mul all_fine 16%Z running)
    as [_ Hok].
  assert (H1 : success (fst (fst (update Z.add Z.mul failing_combat 16%Z running))) = false)
    by reflexivity.
  assert (H2 : success (fst (fst (update Z.add Z.mul all_fine 16%Z running))) = true)
    by reflexivity.
  split_and!; [exact H1 | exact (Hfail H1) | exact H2 | exact (proj2 (Hok H2))].
Defined.

End SimulationRuns.

(** ** Runs of the connection registry *)

Section AgentInterfaceRuns.

Import AgentInterface.







(** C8 on the code. An agent registers and connects; 31 seconds later the
    janitor runs. [_cleanup_inactive_connections] holds [self._lock] when
    it calls [_disconnect_agent], which acquires the same lock: the pass
    never returns, the connection is still in [active_connections] and the
    agent is still Active. And when the connection has been idle for one
    day and five seconds, [.seconds] is 5: the pass returns and leaves the
    connection in place. *)
Theorem janitor_pass_disconnects_nobody :
  let t := 1700000000000000%Z in
  let s := connected_at t in
  active_connections s !! "agent_1" = Some Weakref ∧
  agent_states s !! "agent_1" = Some ACTIVE ∧
  (idle_seconds (t + seconds 31) t = 31%Z ∧
   janitor_pass (t + seconds 31) s = Blocked (with_lock_flag true s)) ∧
  (idle_seconds (t + days 1 + seconds 5) t = 86405%Z ∧
   timedelta_seconds (t + days 1 + seconds 5) t = 5%Z ∧
   janitor_pass (t + days 1 + seconds 5) s = Done tt s).
Proof. vm_compute. done. Qed.

End AgentInterfaceRuns.

(** ** More on the control plane *)

Section ControllerMore.

Import Controller.

Context {D Blob : Type} (meth : Methods D Blob).

Lemma run_snoc (c : SandboxController D Blob) (calls : list Call) (k : Call) :
  run meth c (calls ++ [k]) = step meth (run meth c calls) k.
Proof. unfold run. by rewrite foldl_app. Qed.

Lemma step_not_busy (c : SandboxController D Blob) (k : Call) :
  is_processing c = false → is_processing (step meth c k) = false.
Proof.
  intros Hp. unfold step.
  by destruct (execute_command_via_dispatch meth (call_command k) (call_params k)
                 (call_clock k) c Hp) as (_ & _ & ->).
Qed.

(** X1. After every call of a sequential run on a freshly constructed
    controller [is_processing] is False again: the [finally] clause resets
    it, so no call of such a run finds the controller busy. *)
Theorem controller_is_never_left_busy
    (sim : Simulation D) (now : datetime) (calls : list Call) :
  is_processing (init (Blob := Blob) sim now) = false ∧
  Forall (λ c : SandboxController D Blob, is_processing c = false)
         (trace meth (init sim now) calls).
Proof.
  split; [done|].
  assert (Hgen : ∀ c : SandboxController D Blob, is_processing c = false →
            Forall (λ c, is_processing c = false) (trace meth c calls)).
  { induction calls as [|k ks IH]; intros c Hc; simpl; constructor.
    - by apply step_not_busy.
    - by apply IH, step_not_busy. }
  by apply Hgen.
Qed.

(** One call, counted: it adds one to the error counter and leaves the
    log alone, or leaves the counter alone and logs one entry. *)
Lemma step_accounting (c : SandboxController D Blob) (k : Call) :
  is_processing c = false →
  (error_count (step meth c k) = S (error_count c) ∧
   command_history (step meth c k) = command_history c) ∨
  (error_count (step meth c k) = error_count c ∧
   length (command_history (step meth c k)) =
     min 1000 (S (length (command_history c)))).
Proof.
  intros Hp. unfold step. rewrite execute_command_unfold by done.
  destruct (dispatch _ _ _ _ _) as [[e|res] c1] eqn:Hd;
    apply dispatch_frame in Hd as (Hh & He & _ & _); cbn [snd];
    cbn [error_count command_history with_is_processing] in Hh, He.
  - left. cbn [error_count command_history with_is_processing with_error_count].
    by rewrite He, Hh.
  - right. cbn [error_count command_history with_is_processing].
    destruct (trim_history_frame
        (with_command_history
           (command_history c1 ++
              [mkEntry (now_log (call_clock k)) (value (call_command k))
                 (call_params k) res]) c1)) as (_ & -> & _).
    rewrite trim_history_drop. cbn [error_count command_history with_command_history].
    rewrite He, Hh, length_drop, length_app. cbn [length]. lia.
Qed.

(** X2. In a sequential run on a fresh controller every call either adds
    one to [error_count] or appends one log entry, never both and never
    neither; so the length of [command_history] is the number of calls
    that did not raise, capped at 1000. *)
Theorem history_counts_the_calls_that_returned
    (sim : Simulation D) (now : datetime) (calls : list Call) :
  let c : SandboxController D Blob := run meth (init sim now) calls in
  error_count c ≤ length calls ∧
  length (command_history c) = min 1000 (length calls - error_count c).
Proof.
  cbv zeta.
  assert (Hgen : is_processing (run meth (init (Blob := Blob) sim now) calls) = false ∧
            error_count (run meth (init (Blob := Blob) sim now) calls) ≤ length calls ∧
            length (command_history (run meth (init (Blob := Blob) sim now) calls)) =
              min 1000 (length calls - error_count (run meth (init (Blob := Blob) sim now) calls))).
  { induction calls as [|k calls IH] using rev_ind.
    - cbn [run foldl length init is_processing error_count command_history]. lia.
    - destruct IH as (Hp & Hle & Hlen). rewrite run_snoc, length_app. cbn [length].
      split; [by apply step_not_busy|].
      destruct (step_accounting (run meth (init sim now) calls) k Hp)
        as [[He Hh]|[He Hh]]; rewrite He.
      + rewrite Hh, Hlen. split; [lia|]. f_equal. lia.
      + rewrite Hh, Hlen. lia. }
  by destruct Hgen as (_ & ? & ?).
Qed.

(** X3. A Load whose params have no ['save_id'], an empty one, or one
    that is not in the store fails with "Save state not found";
    [set_state] is not called, and the simulation, the store and the error
    counter are as before. *)
Theorem load_of_unknown_save_is_refused d clk (c : SandboxController D Blob) :
  is_processing c = false →
  (d !! "save_id" = None ∨ d !! "save_id" = Some "" ∨
   ∃ k, d !! "save_id" = Some k ∧ save_states c !! k = None) →
  let out := execute_command meth LOAD (Some d) clk c in
  fst out = inr (Fail "Save state not found") ∧
  simulation (snd out) = simulation c ∧
  save_states (snd out) = save_states c ∧
  error_count (snd out) = error_count c.
Proof.
  intros Hp Hd out. subst out.
  assert (Hl : dispatch meth LOAD (Some d) clk (with_is_processing true c) =
                 (inr (Fail "Save state not found"), with_is_processing true c)).
  { cbn [dispatch]. unfold _load_state, bind, get, ret.
    destruct Hd as [-> | [-> | (k & -> & Hk)]]; [done..|].
    cbn [save_states with_is_processing]. rewrite Hk.
    by destruct (negb (str_truthy k)). }
  rewrite execute_command_unfold by done. rewrite Hl. cbn [fst snd].
  destruct (trim_history_frame
      (with_command_history
         (command_history (with_is_processing true c) ++
            [mkEntry (now_log clk) (value LOAD) (Some d) (Fail "Save state not found")])
         (with_is_processing true c))) as (Hs & He & Hsim).
  cbn [simulation save_states error_count with_is_processing].
  by rewrite Hs, He, Hsim.
Qed.

(** [_save_state] when [get_state()] returns and the store is within
    its bound: the snapshot is inserted and the store trimmed. *)
Lemma save_state_runs params clk blob sim1 (c : SandboxController D Blob) :
  get_state meth (simulation c) = (inr blob, sim1) →
  size (save_states c) ≤ MAX_SAVE_STATES →
  _save_state meth params clk c =
    (inr (SnapshotOk (now_save_id clk) (now_result clk)),
     snd (_trim_save_states
            (with_save_states (<[now_save_id clk := blob]> (save_states c))
               (with_simulation sim1 c)))).
Proof.
  intros Hget Hsz. unfold _save_state, try_except, bind, on_simulation, modify, ret.
  rewrite Hget. cbn [save_states with_simulation].
  set (c1 := with_save_states _ _).
  destruct (trim_save_states_spec c1) as (c2 & Ht & _).
  { unfold c1. cbn [save_states with_save_states]. rewrite map_size_insert.
    destruct (save_states c !! now_save_id clk); simpl; lia. }
  by rewrite Ht.
Qed.

Lemma save_runs params clk blob sim1 (c : SandboxController D Blob) :
  is_processing c = false →
  get_state meth (simulation c) = (inr blob, sim1) →
  size (save_states c) ≤ MAX_SAVE_STATES →
  fst (execute_command meth SAVE params clk c) =
    inr (SnapshotOk (now_save_id clk) (now_result clk)) ∧
  save_states (snd (execute_command meth SAVE params clk c)) =
    save_states (snd (_trim_save_states
      (with_save_states (<[now_save_id clk := blob]> (save_states c))
         (with_simulation sim1 (with_is_processing true c))))).
Proof.
  intros Hp Hget Hsz. rewrite execute_command_unfold by done. cbn [dispatch].
  rewrite (save_state_runs params clk blob sim1) by done. cbn [fst snd].
  split; [done|]. cbn [save_states with_is_processing].
  match goal with
  | |- save_states (snd (_trim_history ?x)) = _ =>
      by destruct (trim_history_frame x) as (-> & _ & _)
  end.
Qed.

(** X4. A Save under an id that is already stored, or into a store with
    room, stores the blob [get_state()] returned under that id and evicts
    nothing: an existing snapshot with the same id is replaced. *)
Theorem save_replaces_or_adds_without_evicting
    params clk blob sim1 (c : SandboxController D Blob) :
  is_processing c = false →
  get_state meth (simulation c) = (inr blob, sim1) →
  size (save_states c) < 10 ∨
    (size (save_states c) ≤ 10 ∧ is_Some (save_states c !! now_save_id clk)) →
  let out := execute_command meth SAVE params clk c in
  fst out = inr (SnapshotOk (now_save_id clk) (now_result clk)) ∧
  save_states (snd out) = <[now_save_id clk := blob]> (save_states c).
Proof.
  intros Hp Hget Hroom out. subst out.
  destruct (save_runs params clk blob sim1 c Hp Hget) as [Hr Hs].
  { unfold MAX_SAVE_STATES. lia. }
  split; [done|]. rewrite Hs. unfold _trim_save_states, bind, get, ret.
  cbn [save_states with_save_states].
  destruct (decide _) as [Hgt|_]; [|done]. exfalso.
  rewrite map_size_insert in Hgt. unfold MAX_SAVE_STATES in Hgt.
  destruct Hroom as [?|[? [v Hv]]].
  - destruct (save_states c !! now_save_id clk); simpl in Hgt; lia.
  - rewrite Hv in Hgt. simpl in Hgt. lia.
Qed.

(** X5. A Save under a new id into a full store (10 snapshots) reports
    success and leaves 10 snapshots: of the eleven ids it removes exactly
    the one that is least in Python's string order, which may be the id
    just returned, and keeps the other ten with their blobs. *)
Theorem save_into_full_store_evicts_least_key
    params clk blob sim1 (c : SandboxController D Blob) :
  is_processing c = false →
  get_state meth (simulation c) = (inr blob, sim1) →
  size (save_states c) = 10 →
  save_states c !! now_save_id clk = None →
  let out := execute_command meth SAVE params clk c in
  fst out = inr (SnapshotOk (now_save_id clk) (now_result clk)) ∧
  size (save_states (snd out)) = 10 ∧
  ∃ k, (k = now_save_id clk ∨ is_Some (save_states c !! k)) ∧
       String.le k (now_save_id clk) ∧
       (∀ k', is_Some (save_states c !! k') → String.le k k') ∧
       save_states (snd out) = delete k (<[now_save_id clk := blob]> (save_states c)).
Proof.
  intros Hp Hget Hsz Hnew out. subst out.
  destruct (save_runs params clk blob sim1 c Hp Hget) as [Hr Hs].
  { unfold MAX_SAVE_STATES. lia. }
  split; [done|]. rewrite Hs.
  set (c1 := with_save_states _ _).
  assert (Hsz1 : size (save_states c1) = 11).
  { unfold c1. cbn [save_states with_save_states].
    rewrite map_size_insert_None by done. lia. }
  destruct (trim_save_states_evicts_least c1) as (k & Hk & Hleast & Hdel).
  { unfold MAX_SAVE_STATES. lia. }
  rewrite Hdel. unfold c1 in *. cbn [save_states with_save_states] in *. split.
  - rewrite map_size_delete_Some by done. rewrite Hsz1. done.
  - exists k. split_and!; [| | |done].
    + destruct (decide (k = now_save_id clk)) as [->|Hne]; [by left|right].
      by rewrite lookup_insert_ne in Hk.
    + apply Hleast. rewrite lookup_insert_eq. eauto.
    + intros k' [v Hv]. apply Hleast.
      destruct (decide (now_save_id clk = k')) as [<-|Hne].
      * rewrite lookup_insert_eq. eauto.
      * rewrite lookup_insert_ne by done. eauto.
Qed.

End ControllerMore.

Section ControllerAsWritten.

Import Controller.

Context {D Blob : Type}.
Context (get_state : M (Simulation D) Blob) (set_state : Blob → M (Simulation D) unit).

(** X6. Pause, Resume, Stop and Reset are dispatched to methods that
    [SandboxController] does not define: whatever the state of the
    simulation, the call returns [{'success': False, 'command': ..,
    'reason': "'SandboxController' object has no attribute
    '_<command>_simulation'"}], adds one to [error_count] and changes
    nothing else, the state of the simulation included. *)
Theorem lifecycle_commands_are_not_implemented
    cmd params clk (c : SandboxController D Blob) :
  cmd ∈ [PAUSE; RESUME; STOP; RESET] →
  is_processing c = false →
  execute_command (methods_as_written get_state set_state) cmd params clk c =
    (inr (CommandFail (value cmd)
            (Some ("'SandboxController' object has no attribute '_"
                   +:+ value cmd +:+ "_simulation'"))),
     with_error_count (S (error_count c)) c).
Proof.
  intros Hcmd Hp. rewrite execute_command_unfold by done.
  destruct c as [sim h st p t n]. simpl in Hp. subst p.
  repeat (apply elem_of_cons in Hcmd as [->|Hcmd]; [reflexivity|]).
  by apply elem_of_nil in Hcmd.
Qed.

End ControllerAsWritten.

Section ControllerMoreRuns.

Import Controller.

Local Abbreviation mock := MockSimulation_methods.

Lemma load_of_unknown_save_is_refused_witness :
  is_processing fresh_mock = false ∧
  save_states fresh_mock !! "1700000000.5" = None ∧
  fst (execute_command mock LOAD (Some {[ "save_id" := "1700000000.5" ]})
         (at_time 5 "0.000005") fresh_mock) = inr (Fail "Save state not found").
Proof.
  split; [reflexivity|]. split; [reflexivity|].
  apply (load_of_unknown_save_is_refused mock {[ "save_id" := "1700000000.5" ]}
           (at_time 5 "0.000005") fresh_mock eq_refl).
  right. right. exists "1700000000.5". split; reflexivity.
Defined.

(** Two Saves at the same clock reading: one snapshot. *)
Lemma save_replaces_or_adds_without_evicting_witness :
  let c := run mock fresh_mock [save_at 5 "0.000005"] in
  is_processing c = false ∧
  get_state mock (simulation c) = (inr {[ "test" := "state" ]}, simulation c) ∧
  size (save_states c) ≤ 10 ∧
  is_Some (save_states c !! "0.000005") ∧
  save_states (snd (execute_command mock SAVE None (at_time 5 "0.000005") c)) =
    <["0.000005" := {[ "test" := "state" ]}]> (save_states c).
Proof.
  cbv zeta.
  assert (H1 : is_processing (run mock fresh_mock [save_at 5 "0.000005"]) = false)
    by reflexivity.
  assert (H2 : size (save_states (run mock fresh_mock [save_at 5 "0.000005"])) ≤ 10)
    by (vm_compute; lia).
  assert (H3 : is_Some (save_states (run mock fresh_mock [save_at 5 "0.000005"])
                          !! "0.000005")) by (vm_compute; eauto).
  split_and!; [exact H1 | reflexivity | exact H2 | exact H3 |].
  apply (save_replaces_or_adds_without_evicting mock None (at_time 5 "0.000005")
           _ _ _ H1 eq_refl (or_intror (conj H2 H3))).
Defined.

(** An eleventh Save one second after the tenth: the first snapshot goes. *)
Lemma save_into_full_store_evicts_least_key_witness :
  let c := run mock fresh_mock saves_before_step_back in
  let out := execute_command mock SAVE None (at_time 1700000011500000 "1700000011.5") c in
  is_processing c = false ∧
  size (save_states c) = 10 ∧
  save_states c !! "1700000011.5" = None ∧
  size (save_states (snd out)) = 10 ∧
  ∃ k, String.le k "1700000011.5" ∧
       save_states (snd out) =
         delete k (<["1700000011.5" := {[ "test" := "state" ]}]> (save_states c)).
Proof.
  cbv zeta.
  assert (H1 : is_processing (run mock fresh_mock saves_before_step_back) = false)
    by reflexivity.
  assert (H2 : size (save_states (run mock fresh_mock saves_before_step_back)) = 10)
    by (vm_compute; reflexivity).
  assert (H3 : save_states (run mock fresh_mock saves_before_step_back)
                 !! "1700000011.5" = None) by (vm_compute; reflexivity).
  destruct (save_into_full_store_evicts_least_key mock None
              (at_time 1700000011500000 "1700000011.5") _ _ _ H1 eq_refl H2 H3)
    as (_ & Hsz & k & _ & Hle & _ & Hdel).
  split_and!; [exact H1 | exact H2 | exact H3 | exact Hsz |].
  exists k. split; [exact Hle | exact Hdel].
Defined.

Lemma lifecycle_commands_are_not_implemented_witness :
  STOP ∈ [PAUSE; RESUME; STOP; RESET] ∧
  is_processing fresh_mock = false ∧
  execute_command mock STOP None (at_time 5 "0.000005") fresh_mock =
    (inr (CommandFail "stop"
            (Some "'SandboxController' object has no attribute '_stop_simulation'")),
     with_error_count 1 fresh_mock).
Proof.
  assert (H : STOP ∈ [PAUSE; RESUME; STOP; RESET]).
  { rewrite !elem_of_cons. auto. }
  split; [exact H|]. split; [reflexivity|].
  exact (lifecycle_commands_are_not_implemented (ret {[ "test" := "state" ]})
           (λ _, ret tt) STOP None (at_time 5 "0.000005") fresh_mock H eq_refl).
Defined.

(** Save and Load of the returned id on a fresh controller. *)
Lemma save_then_load_passes_the_saved_blob_witness :
  let saved := execute_command mock SAVE None (at_time 5 "0.000005") fresh_mock in
  let loaded := execute_command mock LOAD (Some {[ "save_id" := "0.000005" ]})
                  (at_time 9 "0.000009") (snd saved) in
  is_processing fresh_mock = false ∧
  size (save_states fresh_mock) < MAX_SAVE_STATES ∧
  fst saved = inr (SnapshotOk "0.000005" 5) ∧
  fst loaded = inr (SnapshotOk "0.000005" 9) ∧
  simulation (snd loaded) = simulation fresh_mock.
Proof.
  cbv zeta.
  assert (H2 : size (save_states fresh_mock) < MAX_SAVE_STATES)
    by (vm_compute; lia).
  assert (H3 : now_save_id (at_time 5 "0.000005") ≠ "") by discriminate.
  pose proof (save_then_load_passes_the_saved_blob mock (at_time 5 "0.000005")
                (at_time 9 "0.000009") _ _ fresh_mock eq_refl H2 H3 eq_refl)
    as (Hs & _ & _ & Hl).
  simpl in Hl. destruct Hl as [Hl1 Hl2].
  split_and!; [reflexivity | exact H2 | exact Hs | exact Hl1 | exact Hl2].
Defined.

End ControllerMoreRuns.

(** ** More on the connection registry *)

Section AgentInterfaceMore.

Import AgentInterface.

Lemma locked_blocks {A} (body : Op A) (s : AgentInterface) :
  lock s = true → with_lock body s = Blocked s.
Proof. intros Hl. unfold with_lock. by rewrite Hl. Qed.

(** When every handler table belongs to a registered agent,
    [_cleanup_old_events] changes nothing. *)
Lemma cleanup_old_events_loop_noop (keys : list string) (s : AgentInterface) :
  (∀ a, a ∈ keys → is_Some (registered_agents s !! a)) →
  for_each keys
    (λ agent_id s0,
       if decide (is_Some (registered_agents s0 !! agent_id))
       then Done tt s0
       else Done tt (with_event_handlers (delete agent_id (event_handlers s0)) s0)) s
  = Done tt s.
Proof.
  induction keys as [|k keys IH]; intros Hreg; cbn [for_each]; [done|].
  unfold op_bind. destruct (decide _) as [_|Hn].
  - apply IH. intros a Ha. apply Hreg. by right.
  - destruct Hn. apply Hreg. by left.
Qed.

Lemma cleanup_old_events_noop (s : AgentInterface) :
  lock s = false →
  dom (event_handlers s) ⊆ dom (registered_agents s) →
  _cleanup_old_events s = Done tt s.
Proof.
  intros Hl Hsub. unfold _cleanup_old_events, with_lock. rewrite Hl.
  cbn [event_handlers with_lock_flag].
  rewrite cleanup_old_events_loop_noop; [by rewrite unlock_locked|].
  intros a ([a' tbl] & -> & Hin%elem_of_map_to_list)%list_elem_of_fmap.
  cbn [registered_agents with_lock_flag]. apply elem_of_dom, Hsub, elem_of_dom. eauto.
Qed.

(** One request on a consistent registry with the lock free. *)
Lemma serve_consistent (r : Request) (s : AgentInterface) :
  lock s = false → consistent s →
  match serve r s with
  | Done _ s' => lock s' = false ∧ consistent s'
  | Blocked s' => consistent s'
  end.
Proof.
  intros Hl (Hat & Har & Hsr & Her & Hle & Hsz). destruct r as [d now|a now|a|a ev h now|now|].
  - (* register_agent *)
    cbn [serve]. unfold op_bind, op_ret, register_agent, with_lock. rewrite Hl.
    destruct (d !! "id") as [a|]; [|by rewrite unlock_locked].
    destruct (negb (str_truthy a)); [by rewrite unlock_locked|].
    cbn [MAX_CONNECTIONS registered_agents with_lock_flag].
    destruct (decide (MAX_CONNECTIONS s ≤ _)) as [?|Hroom]; [by rewrite unlock_locked|].
    destruct (decide (is_Some _)) as [?|Hfresh%eq_None_not_Some];
      [by rewrite unlock_locked|].
    split; [done|]. unfold consistent. simpl.
    rewrite !dom_insert_L, map_size_insert_None by done.
    split_and!; [done | set_solver | set_solver | set_solver | done | lia].
  - (* connect_agent *)
    cbn [serve]. unfold op_bind, op_ret, connect_agent, with_lock. rewrite Hl.
    cbn [registered_agents with_lock_flag].
    destruct (decide (is_Some _)) as [Hreg%elem_of_dom|?]; [|by rewrite unlock_locked].
    split; [done|]. unfold consistent. simpl. rewrite !dom_insert_L.
    split_and!; [set_solver | set_solver | set_solver | done | done | done].
  - (* _disconnect_agent *)
    cbn [serve]. unfold _disconnect_agent, with_lock. rewrite Hl. simpl.
    destruct (decide (is_Some _)) as [Hst%elem_of_dom|?]; (split; [done|]);
      unfold consistent; simpl; rewrite ?dom_insert_L, !dom_delete_L;
      split_and!; try done; set_solver.
  - (* register_event_handler *)
    cbn [serve]. unfold op_bind, op_ret, register_event_handler, with_lock. rewrite Hl.
    cbn [registered_agents with_lock_flag].
    destruct (decide (is_Some _)) as [Hreg%elem_of_dom|?]; [|by rewrite unlock_locked].
    destruct (callable h); [|by rewrite unlock_locked].
    split; [done|]. unfold consistent. simpl. rewrite !dom_insert_L.
    split_and!; [done | done | done | set_solver | set_solver | done].
  - (* _cleanup_inactive_connections *)
    cbn [serve]. rewrite cleanup_inactive_connections_outcome by done.
    by destruct (decide _).
  - (* _cleanup_old_events *)
    cbn [serve]. rewrite cleanup_old_events_noop by done. done.
Qed.

Lemma serve_all_consistent (rs : list Request) (s : AgentInterface) :
  lock s = false → consistent s →
  match serve_all rs s with
  | Done _ s' => lock s' = false ∧ consistent s'
  | Blocked s' => consistent s'
  end.
Proof.
  revert s. induction rs as [|r rs IH]; intros s Hl Hc; cbn [serve_all for_each].
  - done.
  - unfold op_bind. pose proof (serve_consistent r s Hl Hc) as Hr.
    destruct (serve r s) as [[] s'|s']; [|done].
    destruct Hr as [Hl' Hc']. by apply IH.
Qed.

Lemma init_consistent : consistent init.
Proof.
  unfold consistent. simpl. rewrite !dom_empty_L, map_size_empty.
  split_and!; try done. lia.
Qed.

(** X8. Whatever calls are made on a fresh registry (registrations,
    connections, disconnections, handler registrations, janitor steps),
    the tables stay consistent: a connection and its timestamp exist
    together and only for a registered agent, every registered agent has
    a state, handler tables belong to registered agents, and the number of
    registered agents never exceeds [MAX_CONNECTIONS]; and when the calls
    have all returned the lock is free. *)
Theorem registry_tables_stay_consistent (rs : list Request) :
  let s := state_of (serve_all rs init) in
  dom (active_connections s) = dom (connection_timestamps s) ∧
  dom (active_connections s) ⊆ dom (registered_agents s) ∧
  dom (agent_states s) = dom (registered_agents s) ∧
  dom (event_handlers s) ⊆ dom (registered_agents s) ∧
  dom (last_event_time s) = dom (event_handlers s) ∧
  size (registered_agents s) ≤ MAX_CONNECTIONS s ∧
  (serve_all rs init = Done tt s → lock s = false).
Proof.
  cbv zeta. pose proof (serve_all_consistent rs init eq_refl init_consistent) as H.
  destruct (serve_all rs init) as [[] s|s]; cbn [state_of].
  - destruct H as [Hl (?&?&?&?&?&?)]. split_and!; done.
  - destruct H as (?&?&?&?&?&?). split_and!; try done.
Qed.

(** X9. No method of the class removes a registration, so on a registry
    reached from a fresh one no handler table is ever orphaned: the second
    step of the janitor, [_cleanup_old_events], returns and changes
    nothing. *)
Theorem cleanup_old_events_finds_nothing_to_remove (rs : list Request) (s : AgentInterface) :
  serve_all rs init = Done tt s →
  _cleanup_old_events s = Done tt s.
Proof.
  intros Hrun. pose proof (serve_all_consistent rs init eq_refl init_consistent) as H.
  rewrite Hrun in H. destruct H as [Hl (_ & _ & _ & Hsub & _)].
  by apply cleanup_old_events_noop.
Qed.

(** A registration outlives one request. *)
Lemma serve_keeps_registration (r : Request) (s : AgentInterface) a d :
  registered_agents s !! a = Some d →
  registered_agents (state_of (serve r s)) !! a = Some d.
Proof.
  intros Hreg. destruct (lock s) eqn:Hl.
  { destruct r; cbn [serve]; unfold op_bind, register_agent, connect_agent,
      _disconnect_agent, register_event_handler, _cleanup_inactive_connections,
      _cleanup_old_events; rewrite locked_blocks by done; done. }
  destruct r as [d' now|a' now|a'|a' ev h now|now|]; cbn [serve].
  - unfold op_bind, op_ret, register_agent, with_lock. rewrite Hl.
    repeat case_match; simplify_eq/=; try done.
    rewrite lookup_insert_ne; [done|]. intros ->.
    match goal with H : ¬ is_Some _ |- _ => destruct H end. eauto.
  - unfold op_bind, op_ret, connect_agent, with_lock. rewrite Hl.
    by repeat case_match; simplify_eq/=.
  - unfold _disconnect_agent, with_lock. rewrite Hl. simpl. by case_match.
  - unfold op_bind, op_ret, register_event_handler, with_lock. rewrite Hl.
    by repeat case_match; simplify_eq/=.
  - rewrite cleanup_inactive_connections_outcome by done. by case_match.
  - destruct (cleanup_old_events_spec s Hl) as (s' & -> & _ & Hr & _).
    cbn [state_of]. by rewrite Hr.
Qed.

(** X10. A registration is permanent: once an id is registered with a
    descriptor, no sequence of calls removes the entry or replaces the
    descriptor. *)
Theorem registration_is_permanent (rs : list Request) (s : AgentInterface) a d :
  registered_agents s !! a = Some d →
  registered_agents (state_of (serve_all rs s)) !! a = Some d.
Proof.
  revert s. induction rs as [|r rs IH]; intros s Hreg; cbn [serve_all for_each].
  - done.
  - unfold op_bind. pose proof (serve_keeps_registration r s a d Hreg) as Hr.
    destruct (serve r s) as [[] s'|s']; cbn [state_of] in *; [by apply IH|done].
Qed.

(** X11. Connecting a registered agent and then disconnecting it: the
    connect stores the connection and the time and makes the agent Active;
    the disconnect removes both entries again and leaves the agent
    Disconnected and still registered. *)
Theorem connect_then_disconnect a now (s : AgentInterface) :
  lock s = false →
  is_Some (registered_agents s !! a) →
  ∃ s1 s2,
    connect_agent a now s = Done (Connected Weakref now a) s1 ∧
    active_connections s1 !! a = Some Weakref ∧
    connection_timestamps s1 !! a = Some now ∧
    agent_states s1 !! a = Some ACTIVE ∧
    _disconnect_agent a s1 = Done tt s2 ∧
    active_connections s2 = delete a (active_connections s) ∧
    connection_timestamps s2 = delete a (connection_timestamps s) ∧
    agent_states s2 = <[a := DISCONNECTED]> (agent_states s) ∧
    registered_agents s2 = registered_agents s.
Proof.
  intros Hl Hreg. unfold connect_agent, _disconnect_agent, with_lock. rewrite Hl.
  cbn [registered_agents with_lock_flag].
  destruct (decide (is_Some _)) as [_|?]; [|done].
  eexists _, _. split; [reflexivity|]. simpl. rewrite !lookup_insert_eq.
  destruct (decide (is_Some _)) as [_|Hn]; [|destruct Hn; eauto].
  split_and!; try done; simpl.
  - by rewrite delete_insert_eq.
  - by rewrite delete_insert_eq.
  - by rewrite insert_insert_eq.
Qed.

(** X12. [_disconnect_agent] is idempotent, and on an agent that has no
    connection, no timestamp and no state it changes nothing. *)
Theorem disconnect_is_idempotent a (s : AgentInterface) :
  lock s = false →
  ∃ s1, _disconnect_agent a s = Done tt s1 ∧
        _disconnect_agent a s1 = Done tt s1 ∧
        (active_connections s !! a = None →
         connection_timestamps s !! a = None →
         agent_states s !! a = None → s1 = s).
Proof.
  intros Hl. unfold _disconnect_agent, with_lock. rewrite Hl. simpl.
  eexists. split; [reflexivity|]. destruct s as [mx to ci l ra st ac ts eh le].
  simpl in *. subst l. split.
  - destruct (decide (is_Some (st !! a))) as [Hs|Hs]; simpl.
    + rewrite !delete_delete_eq.
      destruct (decide _) as [_|Hn]; [|destruct Hn; rewrite lookup_insert_eq; eauto].
      by rewrite insert_insert_eq.
    + rewrite !delete_delete_eq. by destruct (decide _).
  - intros Ha Ht Hs. rewrite Hs.
    destruct (decide _) as [[? ?]|_]; [done|]. simpl.
    by rewrite !delete_id.
Qed.

(** X13. [register_event_handler] checks the agent first and the handler
    second, and a refusal changes nothing. On success the handler is the
    one stored for that agent and event type, replacing an earlier one;
    the handlers of every other agent and event type are as before, and
    the registration time is stamped. *)
Theorem register_event_handler_stores a ev h now (s : AgentInterface) :
  lock s = false →
  (registered_agents s !! a = None →
     register_event_handler a ev h now s = Done (Fail "Agent not found") s) ∧
  (is_Some (registered_agents s !! a) → callable h = false →
     register_event_handler a ev h now s = Done (Fail "Invalid handler") s) ∧
  (is_Some (registered_agents s !! a) → callable h = true →
     ∃ s', register_event_handler a ev h now s = Done (HandlerRegistered a ev) s' ∧
           handler_of s' a ev = Some h ∧
           (∀ a' ev', (a', ev') ≠ (a, ev) → handler_of s' a' ev' = handler_of s a' ev') ∧
           last_event_time s' !! a = Some now ∧
           registered_agents s' = registered_agents s ∧
           lock s' = false).
Proof.
  intros Hl. unfold register_event_handler, with_lock. rewrite Hl.
  cbn [registered_agents with_lock_flag]. split_and!.
  - intros Hn. destruct (decide (is_Some _)) as [[? Hs]|_]; [by rewrite Hn in Hs|].
    by rewrite unlock_locked.
  - intros Hreg ->. destruct (decide (is_Some _)) as [_|?]; [|done].
    by rewrite unlock_locked.
  - intros Hreg ->. destruct (decide (is_Some _)) as [_|?]; [|done].
    eexists. split; [reflexivity|]. unfold handler_of. simpl.
    split_and!; try done.
    + by rewrite !lookup_insert_eq; simpl; rewrite lookup_insert_eq.
    + intros a' ev' Hne. destruct (decide (a' = a)) as [->|Ha].
      * rewrite lookup_insert_eq. simpl.
        rewrite lookup_insert_ne by congruence.
        by destruct (event_handlers s !! a).
      * by rewrite lookup_insert_ne.
    + by rewrite lookup_insert_eq.
Qed.

(** X14. The first step of the janitor changes no table. When no
    connection shows more than [CONNECTION_TIMEOUT] in the [.seconds] of
    its idle time it returns and the registry is as before; as soon as one
    does, it never returns: it waits for the lock it is holding and
    nothing has been disconnected. *)
Theorem cleanup_inactive_connections_changes_nothing now (s : AgentInterface) :
  lock s = false →
  ((∀ a ts, connection_timestamps s !! a = Some ts →
            (timedelta_seconds now ts ≤ CONNECTION_TIMEOUT s)%Z) →
   _cleanup_inactive_connections now s = Done tt s) ∧
  (∀ a ts, connection_timestamps s !! a = Some ts →
           (CONNECTION_TIMEOUT s < timedelta_seconds now ts)%Z →
   _cleanup_inactive_connections now s = Blocked (with_lock_flag true s)).
Proof.
  intros Hl. rewrite cleanup_inactive_connections_outcome by done. split.
  - intros Hok. destruct (decide _) as [Hex|_]; [|done].
    apply Exists_exists in Hex as ([a ts] & Hin%elem_of_map_to_list & Hst).
    specialize (Hok a ts Hin). simpl in Hst. lia.
  - intros a ts Hts Hst. destruct (decide _) as [_|Hn]; [done|]. destruct Hn.
    apply Exists_exists. exists (a, ts). split; [|done]. by apply elem_of_map_to_list.
Qed.

(** X15. [_cleanup_old_events], on any registry with the lock free,
    returns; it removes the handler tables of exactly the ids that are not
    registered, keeps every other table as it is, and touches no other
    table. *)
Theorem cleanup_old_events_removes_orphans (s : AgentInterface) :
  lock s = false →
  ∃ s', _cleanup_old_events s = Done tt s' ∧
        lock s' = false ∧
        registered_agents s' = registered_agents s ∧
        agent_states s' = agent_states s ∧
        active_connections s' = active_connections s ∧
        connection_timestamps s' = connection_timestamps s ∧
        (∀ a, is_Some (registered_agents s !! a) →
              event_handlers s' !! a = event_handlers s !! a) ∧
        (∀ a, registered_agents s !! a = None → event_handlers s' !! a = None).
Proof.
  intros Hl.
  destruct (cleanup_old_events_spec s Hl) as (s' & Hrun & ? & ? & ? & ? & ? & Hev).
  exists s'. split_and!; try done.
  - intros a Hreg. rewrite Hev. by destruct (decide _).
  - intros a Hn. rewrite Hev. destruct (decide _) as [[? Hs]|_]; [|done].
    by rewrite Hn in Hs.
Qed.

End AgentInterfaceMore.

Section AgentInterfaceMoreRuns.

Import AgentInterface.

Lemma registry_tables_stay_consistent_witness :
  let s := state_of (serve_all one_agent_session init) in
  serve_all one_agent_session init = Done tt s ∧
  lock s = false ∧
  dom (agent_states s) = dom (registered_agents s) ∧
  size (registered_agents s) ≤ MAX_CONNECTIONS s.
Proof.
  cbv zeta.
  assert (H : serve_all one_agent_session init =
              Done tt (state_of (serve_all one_agent_session init)))
    by (vm_compute; reflexivity).
  destruct (registry_tables_stay_consistent one_agent_session)
    as (_ & _ & Hst & _ & _ & Hsz & Hl).
  split; [exact H|]. split; [exact (Hl H)|]. split; [exact Hst | exact Hsz].
Defined.

Lemma cleanup_old_events_finds_nothing_to_remove_witness :
  let s := state_of (serve_all one_agent_session init) in
  serve_all one_agent_session init = Done tt s ∧
  handler_of s "agent_1" "tick" = Some (Function "on_tick") ∧
  _cleanup_old_events s = Done tt s.
Proof.
  cbv zeta.
  assert (H : serve_all one_agent_session init =
              Done tt (state_of (serve_all one_agent_session init)))
    by (vm_compute; reflexivity).
  split; [exact H|]. split; [vm_compute; reflexivity|].
  exact (cleanup_old_events_finds_nothing_to_remove one_agent_session _ H).
Defined.

Lemma registration_is_permanent_witness :
  registered_agents one_registered !! "agent_1" = Some (descriptor "agent_1") ∧
  registered_agents
    (state_of (serve_all [Disconnect "agent_1"; CleanupOldEvents;
                          Register {[ "id" := "agent_1"; "name" := "other" ]} 9]
                 one_registered)) !! "agent_1" = Some (descriptor "agent_1").
Proof.
  assert (H : registered_agents one_registered !! "agent_1" = Some (descriptor "agent_1"))
    by (vm_compute; reflexivity).
  split; [exact H|]. exact (registration_is_permanent _ _ _ _ H).
Defined.

Lemma connect_then_disconnect_witness :
  lock one_registered = false ∧
  is_Some (registered_agents one_registered !! "agent_1") ∧
  ∃ s1 s2,
    connect_agent "agent_1" 7 one_registered = Done (Connected Weakref 7 "agent_1") s1 ∧
    _disconnect_agent "agent_1" s1 = Done tt s2 ∧
    agent_states s2 !! "agent_1" = Some DISCONNECTED ∧
    active_connections s2 !! "agent_1" = None.
Proof.
  assert (H : is_Some (registered_agents one_registered !! "agent_1"))
    by (eexists; vm_compute; reflexivity).
  split; [vm_compute; reflexivity|]. split; [exact H|].
  destruct (connect_then_disconnect "agent_1" 7 one_registered eq_refl H)
    as (s1 & s2 & Hc & _ & _ & _ & Hd & Hac & _ & Hst & _).
  exists s1, s2. split_and!; [exact Hc | exact Hd | |].
  - rewrite Hst. apply lookup_insert_eq.
  - rewrite Hac. apply lookup_delete_eq.
Defined.

Lemma disconnect_is_idempotent_witness :
  lock init = false ∧
  _disconnect_agent "agent_1" init = Done tt init ∧
  ∃ s1, _disconnect_agent "agent_1" one_registered = Done tt s1 ∧
        _disconnect_agent "agent_1" s1 = Done tt s1.
Proof.
  split; [reflexivity|].
  destruct (disconnect_is_idempotent "agent_1" init eq_refl) as (s0 & H0 & _ & Hsame).
  rewrite (Hsame eq_refl eq_refl eq_refl) in H0. split; [exact H0|].
  destruct (disconnect_is_idempotent "agent_1" one_registered eq_refl) as (s1 & H1 & H2 & _).
  exists s1. split; [exact H1 | exact H2].
Defined.

Lemma register_event_handler_stores_witness :
  lock one_registered = false ∧
  is_Some (registered_agents one_registered !! "agent_1") ∧
  callable (Function "on_tick") = true ∧
  callable (NotCallable "42") = false ∧
  register_event_handler "agent_1" "tick" (NotCallable "42") 6 one_registered =
    Done (Fail "Invalid handler") one_registered ∧
  ∃ s', register_event_handler "agent_1" "tick" (Function "on_tick") 6 one_registered =
          Done (HandlerRegistered "agent_1" "tick") s' ∧
        handler_of s' "agent_1" "tick" = Some (Function "on_tick").
Proof.
  assert (H : is_Some (registered_agents one_registered !! "agent_1"))
    by (eexists; vm_compute; reflexivity).
  destruct (register_event_handler_stores "agent_1" "tick" (NotCallable "42") 6
              one_registered eq_refl) as (_ & Hbad & _).
  destruct (register_event_handler_stores "agent_1" "tick" (Function "on_tick") 6
              one_registered eq_refl) as (_ & _ & Hok).
  destruct (Hok H eq_refl) as (s' & Hrun & Hh & _).
  split_and!; [vm_compute; reflexivity | exact H | reflexivity | reflexivity
              | exact (Hbad H eq_refl) |].
  exists s'. split; [exact Hrun | exact Hh].
Defined.

Lemma cleanup_inactive_connections_changes_nothing_witness :
  let s := connected_at 1700000000000000 in
  lock s = false ∧
  connection_timestamps s !! "agent_1" = Some 1700000000000000%Z ∧
  (CONNECTION_TIMEOUT s < timedelta_seconds (1700000000000000 + seconds 31) 1700000000000000)%Z ∧
  _cleanup_inactive_connections (1700000000000000 + seconds 31) s =
    Blocked (with_lock_flag true s) ∧
  _cleanup_inactive_connections (1700000000000000 + seconds 5) s = Done tt s.
Proof.
  cbv zeta.
  assert (Hts : connection_timestamps (connected_at 1700000000000000) !! "agent_1"
                = Some 1700000000000000%Z) by (vm_compute; reflexivity).
  assert (Hst : (CONNECTION_TIMEOUT (connected_at 1700000000000000)
                 < timedelta_seconds (1700000000000000 + seconds 31) 1700000000000000)%Z)
    by (vm_compute; reflexivity).
  destruct (cleanup_inactive_connections_changes_nothing
              (1700000000000000 + seconds 31) (connected_at 1700000000000000) eq_refl)
    as [_ Hblock].
  destruct (cleanup_inactive_connections_changes_nothing
              (1700000000000000 + seconds 5) (connected_at 1700000000000000) eq_refl)
    as [Hdone _].
  split_and!; [vm_compute; reflexivity | exact Hts | exact Hst
              | exact (Hblock _ _ Hts Hst) |].
  assert (Hmap : connection_timestamps (connected_at 1700000000000000)
                 = {[ "agent_1" := 1700000000000000%Z ]}) by (vm_compute; reflexivity).
  apply Hdone. intros a ts Ha. rewrite Hmap in Ha.
  apply lookup_singleton_Some in Ha as [_ <-]. vm_compute. discriminate.
Defined.

Lemma cleanup_old_events_removes_orphans_witness :
  lock with_orphan_table = false ∧
  is_Some (event_handlers with_orphan_table !! "ghost") ∧
  ∃ s', _cleanup_old_events with_orphan_table = Done tt s' ∧
        event_handlers s' !! "ghost" = None.
Proof.
  split; [reflexivity|]. split; [eexists; vm_compute; reflexivity|].
  destruct (cleanup_old_events_removes_orphans with_orphan_table eq_refl)
    as (s' & Hrun & _ & _ & _ & _ & _ & _ & Horph).
  exists s'. split; [exact Hrun|]. apply Horph. vm_compute. reflexivity.
Defined.

End AgentInterfaceMoreRuns.

(** ** More on the tick scheduler *)

Section SimulationMore.

Import Simulation.

Context {time World Upd Event Metric : Type}.
Context (time_add time_mul : time → time → time).
Context (sub : Subsystems time World Upd Event Metric).

Local Abbreviation update := (update time_add time_mul sub).

(** The ['time'] entry of the batch is the clock value the tick was
    started with. *)
Lemma tick_reports_start_time sd t0 (w : World) u w' log :
  tick sub sd t0 (w, []) = (inr u, (w', log)) → upd_time u = t0.
Proof.
  unfold tick, bind, ret, invoke.
  repeat (let x := fresh in
          match goal with
          | |- context [match ?f ?a with _ => _ end] => destruct (f a) as [[?|?] ?]
          end; try discriminate).
  by intros [= <- _ _].
Qed.

(** X16. [update] makes no transition other than Running to Error: in
    every other case the state is what it was. It never changes
    [time_scale], and a successful tick leaves the state Running and
    reports in ['time'] the clock value from before the tick. *)
Theorem update_only_moves_running_to_error dt (s : SandboxSimulation time World) :
  let r := fst (fst (update dt s)) in
  let s' := snd (fst (update dt s)) in
  time_scale s' = time_scale s ∧
  (state s' = state s ∨ (state s = RUNNING ∧ state s' = ERROR)) ∧
  (∀ u, r = Success u →
        state s = RUNNING ∧ state s' = RUNNING ∧ upd_time u = current_time s).
Proof.
  cbv zeta. unfold Simulation.update.
  destruct (decide (state s ≠ RUNNING)) as [Hne|Heq%dec_stable]; cbn [fst snd].
  - split_and!; [done | by left | done].
  - destruct (tick _ _ _ _) as [[e|u] [w log]] eqn:Ht; cbn [fst snd state time_scale].
    + split_and!; [done | by right | done].
    + split_and!; [done | by left |]. intros u' [= <-].
      split_and!; [done..|]. by eapply tick_reports_start_time.
Qed.

(** X17. [SandboxSimulation] does not define [_pre_update], the first
    call of the tick: with the class as it is, every [update] of a running
    simulation fails with the [AttributeError], the state becomes Error,
    no subsystem is updated and the clock stays. *)
Theorem update_fails_at_undefined_pre_update dt (s : SandboxSimulation time World) :
  _pre_update sub = (λ _, raise (AttributeError "SandboxSimulation" "_pre_update")) →
  state s = RUNNING →
  update dt s =
    (Failure "'SandboxSimulation' object has no attribute '_pre_update'",
     mkSim ERROR (current_time s) (time_scale s) (world s),
     [(PreUpdate, Some (AttributeError "SandboxSimulation" "_pre_update"))]).
Proof.
  intros Hpre Hs. unfold Simulation.update.
  destruct (decide _) as [Hne|_]; [done|].
  unfold tick, bind, invoke. rewrite Hpre. reflexivity.
Qed.

End SimulationMore.

Section SimulationMoreRuns.

Import Simulation.

Lemma update_only_moves_running_to_error_witness :
  (∃ u, fst (fst (update Z.add Z.mul all_fine 16%Z (mkSim RUNNING 40%Z 1%Z [])))
        = Success u ∧ upd_time u = 40%Z) ∧
  state (snd (fst (update Z.add Z.mul all_fine 16%Z (mkSim RUNNING 40%Z 1%Z [])))) = RUNNING ∧
  state (snd (fst (update Z.add Z.mul failing_combat 16%Z running))) = ERROR ∧
  state (snd (fst (update Z.add Z.mul failing_combat 16%Z paused))) = PAUSED.
Proof.
  pose proof (update_only_moves_running_to_error Z.add Z.mul all_fine 16%Z
                (mkSim RUNNING 40%Z 1%Z [])) as (_ & _ & Hok).
  split.
  - eexists. split; [reflexivity|]. by destruct (Hok _ eq_refl) as (_ & _ & ->).
  - split_and!; [by destruct (Hok _ eq_refl) as (_ & -> & _) | reflexivity..].
Defined.

Lemma update_fails_at_undefined_pre_update_witness :
  state running = RUNNING ∧
  fst (fst (update Z.add Z.mul without_pre_update 16%Z running)) =
    Failure "'SandboxSimulation' object has no attribute '_pre_update'" ∧
  world (snd (fst (update Z.add Z.mul without_pre_update 16%Z running))) = [].
Proof.
  split; [reflexivity|].
  rewrite (update_fails_at_undefined_pre_update Z.add Z.mul without_pre_update 16%Z
             running eq_refl eq_refl).
  split; reflexivity.
Defined.

End SimulationMoreRuns.

(** ** The game tick and the simulation *)

Section GameFacts.

Import Game.

Context {time GWorld SWorld Upd Event Metric : Type}.
Context (time_add time_mul : time → time → time).
Context (sim_sub : Simulation.Subsystems time SWorld Upd Event Metric).
Context (sys : Systems time GWorld Event Metric).

Local Abbreviation update := (update time_add time_mul sim_sub sys).

(** X18. The outcome of [Game.update] does not depend on the simulation
    it ticks: the result (success or failure, events, metrics, time) and
    the game's own state, clock and systems are the same whatever state
    the simulation is in and whatever its tick does. So the events of the
    simulation never reach the game's batch, and a failed simulation tick
    is not reported. *)
Theorem game_update_ignores_the_simulation dt (g : Game time GWorld SWorld)
    (sim2 : Simulation.SandboxSimulation time SWorld) :
  fst (update dt (with_simulation sim2 g)) = fst (update dt g) ∧
  own_state (snd (update dt (with_simulation sim2 g))) = own_state (snd (update dt g)).
Proof.
  destruct g as [st ct ts sim w].
  unfold Game.update, on_world, simulation_update, _update_core_systems,
    _update_social_systems, own_state, bind, ret, modify.
  generalize (Simulation.update time_add time_mul sim_sub). intros upd. simpl.
  destruct (decide (st ≠ RUNNING)) as [Hne|_]; [done|].
  set (sd := time_mul dt ts).
  destruct (environment_update sys sd w) as [[e|ev1] w1]; [done|].
  destruct (physics_update sys sd w1) as [[e|ev2] w2]; [done|].
  destruct (interaction_update_all sys sd w2) as [[e|ev3] w3]; [done|]. simpl.
  destruct (relationships_update sys sd w3) as [[e|ev4] w4]; [done|].
  destruct (factions_update sys sd w4) as [[e|ev5] w5]; [done|]. simpl.
  destruct (combat_update sys sd w5) as [[e|ev6] w6]; [done|]. simpl.
  destruct (upd sd sim2) as [[r2 s2] l2]. destruct (upd sd sim) as [[r1 s1] l1]. simpl.
  destruct (_update_performance_metrics sys ∅ w6) as [[e|m] w7]; [done|]. simpl.
  by destruct r1, r2.
Qed.

(** X19. [Game.update] is refused unless the game is Running, and the
    refusal changes nothing. A failed call leaves the game clock where it
    was, and when the game was Running the state becomes Error; a
    successful call keeps the state Running and advances the clock by the
    scaled delta. *)
Theorem game_update_advances_the_clock_only_on_success dt (g : Game time GWorld SWorld) :
  let r := fst (update dt g) in
  let g' := snd (update dt g) in
  (state g ≠ RUNNING →
     update dt g = (Simulation.Failure ("Game not running: " +:+ str_state (state g)), g)) ∧
  (Simulation.success r = false →
     current_time g' = current_time g ∧ (state g = RUNNING → state g' = ERROR)) ∧
  (Simulation.success r = true →
     state g = RUNNING ∧ state g' = RUNNING ∧
     current_time g' = time_add (current_time g) (time_mul dt (time_scale g))).
Proof.
  destruct g as [st ct ts sim w].
  unfold Game.update, on_world, simulation_update, _update_core_systems,
    _update_social_systems, bind, ret, modify.
  generalize (Simulation.update time_add time_mul sim_sub). intros upd. simpl.
  destruct (decide (st ≠ RUNNING)) as [Hne|Heq%dec_stable]; [done|]. subst st.
  set (sd := time_mul dt ts).
  destruct (environment_update sys sd w) as [[e|ev1] w1]; [done|].
  destruct (physics_update sys sd w1) as [[e|ev2] w2]; [done|].
  destruct (interaction_update_all sys sd w2) as [[e|ev3] w3]; [done|]. simpl.
  destruct (relationships_update sys sd w3) as [[e|ev4] w4]; [done|].
  destruct (factions_update sys sd w4) as [[e|ev5] w5]; [done|]. simpl.
  destruct (combat_update sys sd w5) as [[e|ev6] w6]; [done|]. simpl.
  destruct (upd sd sim) as [[r1 s1] l1]. simpl.
  destruct (_update_performance_metrics sys ∅ w6) as [[e|m] w7]; done.
Qed.

End GameFacts.

Section GameRuns.

Import Game.

(** A game tick over a simulation whose tick fails: the game reports
    success with its own three events, and the simulation is in Error. *)
Lemma game_tick_over_a_failing_simulation :
  let out := update Z.add Z.mul Simulation.failing_combat reporting 16%Z
               (running_game Simulation.running) in
  (∃ u, fst out = Simulation.Success u ∧
        Simulation.upd_events u = ["weather"; "collision"; "duel"]) ∧
  state (snd out) = RUNNING ∧
  current_time (snd out) = 16%Z ∧
  Simulation.state (simulation (snd out)) = Simulation.ERROR.
Proof. vm_compute. split; [eexists; split; reflexivity|done]. Qed.

Lemma game_update_advances_the_clock_only_on_success_witness :
  let g := running_game Simulation.running in
  let refused := update Z.add Z.mul Simulation.failing_combat reporting 16%Z
                   (with_state PAUSED g) in
  let ticked := update Z.add Z.mul Simulation.failing_combat reporting 16%Z g in
  state (with_state PAUSED g) ≠ RUNNING ∧
  refused = (Simulation.Failure "Game not running: GameState.PAUSED", with_state PAUSED g) ∧
  Simulation.success (fst ticked) = true ∧
  current_time (snd ticked) = 16%Z.
Proof.
  cbv zeta.
  destruct (game_update_advances_the_clock_only_on_success Z.add Z.mul
              Simulation.failing_combat reporting 16%Z
              (with_state PAUSED (running_game Simulation.running))) as (Href & _ & _).
  destruct (game_update_advances_the_clock_only_on_success Z.add Z.mul
              Simulation.failing_combat reporting 16%Z
              (running_game Simulation.running)) as (_ & _ & Hok).
  assert (Hne : state (with_state PAUSED (running_game Simulation.running)) ≠ RUNNING)
    by discriminate.
  assert (Hs : Simulation.success
                 (fst (update Z.add Z.mul Simulation.failing_combat reporting 16%Z
                         (running_game Simulation.running))) = true)
    by (vm_compute; reflexivity).
  split; [exact Hne|]. split; [exact (Href Hne)|]. split; [exact Hs|].
  destruct (Hok Hs) as (_ & _ & ->). reflexivity.
Defined.

End GameRuns.
